(** * SpendWell: the analytical core, embedded in Rocq

    A shallow embedding of [database.py], [anomaly_detector.py] and
    [predictive_analyzer.py], of [get_spending_summary] of
    [ai_financial_advisor.py] and of what the expense handler of
    [telegram_bot.py] does with the store and the detector.

    - Python floats are IEEE-754 binary64 numbers: Rocq's primitive [float].
    - A pandas DataFrame of expenses is the list of its rows.
    - The SQLite file behind [ExpenseDatabase] is the record [database]; every
      method that opens a connection is a computation in the monad [M], which
      threads the database and carries a raised Python exception.
    - scikit-learn's IsolationForest and Prophet's fitted model are interfaces
      ([IsolationForestLib], [ProphetLib]): what the trees or the Stan fit
      compute is left open, what the callers rely on (shapes, the definition of
      [predict] from [score_samples], input validation) is written out.
    - One clock reading [now] stands for SQLite's ['now'] and for
      [datetime.now()]. *)

From Stdlib Require Import ZArith List Bool String DecimalString Floats Lia.
From Stdlib Require Import Sorted Permutation OrderedTypeEx.
Import ListNotations.

Set Warnings "-inexact-float".

Local Open Scope Z_scope.

(** ** Python exceptions *)

Inductive exn : Type :=
| ValueError (msg : string)
| IndexError (msg : string)
| TypeError (msg : string).

Inductive result (A : Type) : Type :=
| Return (a : A)
| Raise (e : exn).

Arguments Return {A} a.
Arguments Raise {A} e.

(** [str(n)] *)
Definition str (n : nat) : string := NilEmpty.string_of_uint (Nat.to_uint n).

Definition is_raise {A : Type} (r : result A) : bool :=
  match r with
  | Return _ => false
  | Raise _ => true
  end.

(** ** Calendar arithmetic ([datetime], [timedelta])

    A timestamp is the proleptic Gregorian day number of its date (Python's
    [toordinal], day 1 = 0001-01-01) together with the seconds since midnight.
    The fields [year], [month], [day], [hour] are read off it the way
    CPython's [_ord2ymd] does. Sub-second parts are dropped: the only
    subtraction in the code is between two values with the same time of day. *)

Module Calendar.

Definition is_leap (year : Z) : bool :=
  (year mod 4 =? 0) && (negb (year mod 100 =? 0) || (year mod 400 =? 0)).

Definition DAYS_IN_MONTH (month : Z) : Z :=
  match month with
  | 1 => 31 | 2 => 28 | 3 => 31 | 4 => 30 | 5 => 31 | 6 => 30
  | 7 => 31 | 8 => 31 | 9 => 30 | 10 => 31 | 11 => 30 | 12 => 31
  | _ => -1
  end.

Definition DAYS_BEFORE_MONTH (month : Z) : Z :=
  match month with
  | 1 => 0 | 2 => 31 | 3 => 59 | 4 => 90 | 5 => 120 | 6 => 151
  | 7 => 181 | 8 => 212 | 9 => 243 | 10 => 273 | 11 => 304 | 12 => 334
  | _ => -1
  end.

Definition days_before_year (year : Z) : Z :=
  let y := year - 1 in
  y * 365 + y / 4 - y / 100 + y / 400.

Definition days_in_month (year month : Z) : Z :=
  if (month =? 2) && is_leap year then 29 else DAYS_IN_MONTH month.

Definition days_before_month (year month : Z) : Z :=
  DAYS_BEFORE_MONTH month + (if (2 <? month) && is_leap year then 1 else 0).

Definition ymd2ord (year month day : Z) : Z :=
  days_before_year year + days_before_month year month + day.

Definition DI400Y : Z := 146097.
Definition DI100Y : Z := 36524.
Definition DI4Y : Z := 1461.

Definition ord2ymd (n0 : Z) : Z * Z * Z :=
  let n := n0 - 1 in
  let n400 := n / DI400Y in
  let n := n mod DI400Y in
  let year := n400 * 400 + 1 in
  let n100 := n / DI100Y in
  let n := n mod DI100Y in
  let n4 := n / DI4Y in
  let n := n mod DI4Y in
  let n1 := n / 365 in
  let n := n mod 365 in
  let year := year + n100 * 100 + n4 * 4 + n1 in
  if (n1 =? 4) || (n100 =? 4) then (year - 1, 12, 31)
  else
    let leapyear := (n1 =? 3) && (negb (n4 =? 24) || (n100 =? 3)) in
    let month := Z.shiftr (n + 50) 5 in
    let preceding :=
      DAYS_BEFORE_MONTH month + (if (2 <? month) && leapyear then 1 else 0) in
    if n <? preceding then
      let month := month - 1 in
      let preceding :=
        preceding - (DAYS_IN_MONTH month + (if (month =? 2) && leapyear then 1 else 0)) in
      (year, month, n - preceding + 1)
    else (year, month, n - preceding + 1).

Record datetime : Type := mkdatetime {
  toordinal : Z;
  seconds : Z
}.

Definition make (y m d hh mm ss : Z) : datetime :=
  mkdatetime (ymd2ord y m d) (hh * 3600 + mm * 60 + ss).

Definition year (t : datetime) : Z := fst (fst (ord2ymd (toordinal t))).
Definition month (t : datetime) : Z := snd (fst (ord2ymd (toordinal t))).
Definition day (t : datetime) : Z := snd (ord2ymd (toordinal t)).
Definition hour (t : datetime) : Z := seconds t / 3600.

(** [Series.dt.dayofweek] and [date.weekday()]: Monday is 0. *)
Definition dayofweek (t : datetime) : Z := (toordinal t + 6) mod 7.

(** [Series.dt.date]: the calendar day of a timestamp, as its day number. *)
Definition date (t : datetime) : Z := toordinal t.

(** [t.replace(day=d)] *)
Definition replace_day (t : datetime) (d : Z) : datetime :=
  mkdatetime (ymd2ord (year t) (month t) d) (seconds t).

(** [t + timedelta(days=k)] (and [t - timedelta(days=k)] for a negative [k]) *)
Definition add_days (t : datetime) (k : Z) : datetime :=
  mkdatetime (toordinal t + k) (seconds t).

Definition total_seconds (t : datetime) : Z := toordinal t * 86400 + seconds t.

(** [(a - b).days]: a timedelta is normalised with a floor division. *)
Definition sub_days (a b : datetime) : Z :=
  (total_seconds a - total_seconds b) / 86400.

(** Timestamps are stored as ['YYYY-MM-DD HH:MM:SS'] text, whose string order
    is the chronological one. *)
Definition leb (a b : datetime) : bool := total_seconds a <=? total_seconds b.

End Calendar.

(** ** Floats *)

Local Open Scope float_scope.

Definition float_of_Z (z : Z) : float :=
  if (z <? 0)%Z then - PrimFloat.of_uint63 (Uint63.of_Z (- z))
  else PrimFloat.of_uint63 (Uint63.of_Z z).

Definition float_of_nat (n : nat) : float := float_of_Z (Z.of_nat n).

(** The builtin [max(0.0, x)]: the first argument stays unless a later one is
    strictly greater (so a NaN never replaces it). *)
Definition py_max0 (x : float) : float := if 0 <? x then x else 0.

(** A float is falsy exactly when it equals zero (of either sign). *)
Definition truthy (x : float) : bool := negb (x =? 0).

Definition isnan (x : float) : bool := negb (x =? x).

(** [Series.sum()], [Series.mean()] and [Series.std(ddof=0)] as pandas'
    [nanops] compute them: the mean is the sum over the count, the variance the
    sum of the squared deviations from that mean over [count - ddof]. The sum
    is taken left to right; numpy's pairwise order differs in rounding only. *)
Definition series_sum (l : list float) : float := fold_left PrimFloat.add l 0.

Definition series_mean (l : list float) : float :=
  series_sum l / float_of_nat (List.length l).

Definition series_std (ddof : nat) (l : list float) : float :=
  let avg := series_mean l in
  let sqr := map (fun v => (avg - v) * (avg - v)) l in
  sqrt (series_sum sqr / float_of_nat (List.length l - ddof)).

(** ** The expense store ([database.py]) *)

(** A row of the [expenses] table. *)
Record expense : Type := mkexpense {
  id : Z;
  user_id : Z;
  amount : float;
  category : string;
  payment_method : string;
  description : string;
  timestamp : Calendar.datetime;
  is_anomaly : bool;
  anomaly_score : float
}.

(** A row of the [user_preferences] table; a NULL column is [None]. *)
Record user_preferences : Type := mkprefs {
  prefs_user_id : Z;
  monthly_income : option float;
  savings_goal : option float;
  risk_tolerance : option string;
  notification_enabled : bool
}.

(** A row of the [forecasts] table (its autoincrement key left out). *)
Record forecast_row : Type := mkforecast_row {
  fr_user_id : Z;
  forecast_date : Z;
  predicted_amount : float;
  fr_category : string;
  created_at : Calendar.datetime
}.

Record database : Type := mkdatabase {
  expenses : list expense;
  preferences : list user_preferences;
  forecasts : list forecast_row
}.

(** A computation that reads and writes the database and may raise. *)
Definition M (A : Type) : Type := database -> result A * database.

Definition ret {A : Type} (a : A) : M A := fun db => (Return a, db).

Definition bind {A B : Type} (c : M A) (k : A -> M B) : M B :=
  fun db =>
    match c db with
    | (Return a, db') => k a db'
    | (Raise e, db') => (Raise e, db')
    end.

(** A library call that touches no table: its exception propagates. *)
Definition lift {A : Type} (r : result A) : M A := fun db => (r, db).

Declare Scope monad_scope.
Delimit Scope monad_scope with monad.
Notation "x <- c ;; k" := (bind c (fun x => k))
  (at level 61, c at next level, right associativity) : monad_scope.
Notation "' p <- c ;; k" := (bind c (fun x => let 'p := x in k))
  (at level 61, p pattern, c at next level, right associativity) : monad_scope.
Notation "c ;; k" := (bind c (fun _ => k))
  (at level 61, right associativity) : monad_scope.
Local Open Scope monad_scope.

(** [ORDER BY timestamp DESC]: rows with equal timestamps keep table order. *)
Fixpoint insert_desc (e : expense) (l : list expense) : list expense :=
  match l with
  | [] => [e]
  | x :: tl =>
      if Calendar.leb (timestamp e) (timestamp x) then x :: insert_desc e tl
      else e :: l
  end.

Definition order_by_timestamp_desc (l : list expense) : list expense :=
  fold_left (fun acc e => insert_desc e acc) l [].

(** The query of [get_user_expenses]: the user's rows no older than [days]
    days before the clock reading [now], newest first. This is the query
    on the windows SQLite can compute ([window_is_valid] below): for a
    negative [days] the modifier ['-' || days || ' days'] is malformed, and
    for a start before the calendar [datetime] has no value; the comparison
    with NULL then keeps no row. *)
Definition select_user_expenses (now : Calendar.datetime) (uid : Z) (days : Z)
  (table : list expense) : list expense :=
  let since := Calendar.add_days now (- days) in
  order_by_timestamp_desc
    (filter (fun e => (user_id e =? uid)%Z && Calendar.leb since (timestamp e))
            table).

Definition get_user_expenses (now : Calendar.datetime) (uid : Z) (days : Z)
  : M (list expense) :=
  fun db => (Return (select_user_expenses now uid days (expenses db)), db).

Definition set_anomaly (a : bool) (s : float) (e : expense) : expense :=
  mkexpense (id e) (user_id e) (amount e) (category e) (payment_method e)
            (description e) (timestamp e) a s.

(** [update_anomaly_status]: [UPDATE expenses SET is_anomaly = ?,
    anomaly_score = ? WHERE id = ?]. *)
Definition update_anomaly_status (expense_id : Z) (a : bool) (s : float) : M unit :=
  fun db =>
    (Return tt,
     mkdatabase
       (map (fun e => if (id e =? expense_id)%Z then set_anomaly a s e else e)
            (expenses db))
       (preferences db) (forecasts db)).

(** The query of [get_user_preferences]: [fetchone] of the rows of that
    user. *)
Definition select_user_preferences (uid : Z) (table : list user_preferences)
  : option user_preferences :=
  find (fun p => (prefs_user_id p =? uid)%Z) table.

Definition get_user_preferences (uid : Z) : M (option user_preferences) :=
  fun db => (Return (select_user_preferences uid (preferences db)), db).

(** One entry of a forecast, the dictionary built by
    [forecast_expenses_prophet]; [fc_date] is the day that
    [strftime("%Y-%m-%d")] prints. *)
Record forecast_point : Type := mkpoint {
  fc_date : Z;
  fc_amount : float;
  lower_bound : float;
  upper_bound : float
}.

(** [save_forecast]: one inserted row per entry, with the category
    defaulting to ["total"]. *)
Definition save_forecast (now : Calendar.datetime) (uid : Z)
  (fs : list forecast_point) : M unit :=
  fun db =>
    (Return tt,
     mkdatabase (expenses db) (preferences db)
       (forecasts db ++
        map (fun f => mkforecast_row uid (fc_date f) (fc_amount f) "total" now) fs)).

(** ** Settings ([config.py]) *)

Definition ANOMALY_CONTAMINATION : float := 0.1.
Definition FORECAST_DAYS : nat := 30.
Definition MIN_DATA_POINTS : nat := 30.

(** ** Feature matrices and the scikit-learn interface *)

(** A two-dimensional float array: [ncols] is [shape[1]], known even when
    there is no row. *)
Record ndarray : Type := mkarray {
  ncols : nat;
  rows : list (list float)
}.

(** [X[0]] *)
Definition item0 {A : Type} (l : list A) : result A :=
  match l with
  | x :: _ => Return x
  | [] => Raise (IndexError "index 0 is out of bounds")
  end.

Fixpoint insert_unique (s : string) (l : list string) : list string :=
  match l with
  | [] => [s]
  | x :: tl =>
      match String.compare s x with
      | Eq => l
      | Lt => s :: l
      | Gt => x :: insert_unique s tl
      end
  end.

(** The indicator columns [pd.get_dummies] makes for a column: one per
    distinct value of that column, in sorted order. *)
Definition dummy_columns (col : list string) : list string :=
  fold_left (fun acc s => insert_unique s acc) col [].

Definition one_hot (columns : list string) (v : string) : list float :=
  map (fun c => if String.eqb v c then 1 else 0)%float columns.

Definition fillna0 (x : float) : float := if isnan x then 0%float else x.

(** [StandardScaler]: the state [fit] leaves behind. *)
Record StandardScaler : Type := mkscaler {
  n_features_in_ : nat;
  mean_ : list float;
  scale_ : list float
}.

Definition column (X : ndarray) (j : nat) : list float :=
  map (fun r => nth j r 0%float) (rows X).

(** A zero standard deviation is replaced by 1. *)
Definition handle_zeros_in_scale (s : float) : float :=
  if (s =? 0)%float then 1%float else s.

Definition scaler_fit (X : ndarray) : StandardScaler :=
  mkscaler (ncols X)
    (map (fun j => series_mean (column X j)) (seq 0 (ncols X)))
    (map (fun j => handle_zeros_in_scale (series_std 0 (column X j)))
         (seq 0 (ncols X))).

Fixpoint standardize (r m s : list float) : list float :=
  match r, m, s with
  | x :: r', mu :: m', sd :: s' => ((x - mu) / sd)%float :: standardize r' m' s'
  | _, _, _ => []
  end.

(** [scaler.transform(X)]: scikit-learn validates the input against the
    number of features seen by [fit] and raises [ValueError] when they
    differ. *)
Definition scaler_transform (sc : StandardScaler) (X : ndarray) : result ndarray :=
  if Nat.eqb (ncols X) (n_features_in_ sc) then
    Return (mkarray (ncols X)
                    (map (fun r => standardize r (mean_ sc) (scale_ sc)) (rows X)))
  else
    Raise (ValueError ("X has " ++ str (ncols X)
                       ++ " features, but StandardScaler is expecting "
                       ++ str (n_features_in_ sc) ++ " features as input.")).

(** [scaler.fit_transform(X)] is [fit(X)] followed by [transform(X)]. *)
Definition scaler_fit_transform (X : ndarray) : result (StandardScaler * ndarray) :=
  let sc := scaler_fit X in
  match scaler_transform sc X with
  | Return Xs => Return (sc, Xs)
  | Raise e => Raise e
  end.

(** [IsolationForest]: the trees grown by [fit] are the library's business.
    A fitted forest gives each sample its [score_samples] value and carries
    the threshold [offset_]; [decision_function] and [predict] are defined
    from those two as in scikit-learn. *)
Record IsolationForestLib : Type := mkiforest {
  forest : Type;
  if_fit : float -> Z -> nat -> ndarray -> forest;
  if_score_samples : forest -> list float -> float;
  if_offset_ : forest -> float
}.

Definition if_decision_function (L : IsolationForestLib) (f : forest L)
  (x : list float) : float :=
  (if_score_samples L f x - if_offset_ L f)%float.

Definition if_predict (L : IsolationForestLib) (f : forest L) (x : list float) : Z :=
  if (if_decision_function L f x <? 0)%float then (-1)%Z else 1%Z.

(** ** The anomaly detector ([anomaly_detector.py]) *)

(** The third component of [check_new_expense]'s result. The two f-strings
    are kept as their template and arguments:
    - [NotEnoughData]: "Not enough data for anomaly detection"
    - [ExpenseNotFound]: "Expense not found"
    - [SignificantlyHigher cat amt avg]: "This {cat} expense (Rs{amt:.2f}) is
      significantly higher than your average (Rs{avg:.2f})"
    - [UnusuallyLow cat amt]: "This {cat} expense (Rs{amt:.2f}) is unusually
      low for this category"
    - [UnusualPattern]: "This expense pattern is unusual based on your
      history" *)
Inductive message : Type :=
| NotEnoughData
| ExpenseNotFound
| SignificantlyHigher (cat : string) (amt avg : float)
| UnusuallyLow (cat : string) (amt : float)
| UnusualPattern.

Definition is_higher_than_usual (m : message) : bool :=
  match m with
  | SignificantlyHigher _ _ _ => true
  | _ => false
  end.

Definition prepare_features (df : list expense) : ndarray :=
  let cat_enc := dummy_columns (map category df) in
  let pay_enc := dummy_columns (map payment_method df) in
  mkarray (4 + List.length cat_enc + List.length pay_enc)
    (map (fun e =>
            map fillna0
                ([amount e;
                  float_of_Z (Calendar.hour (timestamp e));
                  float_of_Z (Calendar.dayofweek (timestamp e));
                  float_of_Z (Calendar.day (timestamp e))]
                 ++ one_hot cat_enc (category e)
                 ++ one_hot pay_enc (payment_method e)))
         df).

Definition _explain (expense0 : expense) (hist : list expense) : message :=
  let amt := amount expense0 in
  let cat := category expense0 in
  let cat_hist := filter (fun e => String.eqb (category e) cat) hist in
  if (3 <=? List.length cat_hist)%nat then
    let avg := series_mean (map amount cat_hist) in
    let std := series_std 0 (map amount cat_hist) in
    if (avg + 2 * std <? amt)%float then SignificantlyHigher cat amt avg
    else if (amt <? avg - 2 * std)%float then UnusuallyLow cat amt
    else UnusualPattern
  else UnusualPattern.

Definition set_is_anomaly (e : expense) (a : bool) : expense :=
  mkexpense (id e) (user_id e) (amount e) (category e) (payment_method e)
            (description e) (timestamp e) a (anomaly_score e).

Definition set_anomaly_score (e : expense) (s : float) : expense :=
  mkexpense (id e) (user_id e) (amount e) (category e) (payment_method e)
            (description e) (timestamp e) (is_anomaly e) s.

(** Column assignment [df[c] = values]: row [i] takes [values[i]]. *)
Fixpoint assign {A : Type} (set : expense -> A -> expense)
  (df : list expense) (values : list A) : list expense :=
  match df, values with
  | e :: df', v :: values' => set e v :: assign set df' values'
  | _, _ => []
  end.

(** [for _, row in df.iterrows(): body(row)] *)
Fixpoint iterrows (df : list expense) (body : expense -> M unit) : M unit :=
  match df with
  | [] => ret tt
  | row :: df' => body row ;; iterrows df' body
  end.

Section AnomalyDetector.

(** The fields set by [__init__]: the forest implementation and its
    [contamination]; [random_state=42] and [n_estimators=100] are fixed. *)
Variable L : IsolationForestLib.
Variable contamination : float.

Definition model_fit (X : ndarray) : forest L := if_fit L contamination 42 100 X.

Definition detect_anomalies (now : Calendar.datetime) (uid : Z) : M (list expense) :=
  df <- get_user_expenses now uid 90 ;;
  if (List.length df <? 10)%nat then ret []
  else
    let X := prepare_features df in
    ' (_, Xs) <- lift (scaler_fit_transform X) ;;
    let model := model_fit Xs in
    let pred := map (if_predict L model) (rows Xs) in
    let scores := map (if_score_samples L model) (rows Xs) in
    let df := assign set_is_anomaly df (map (fun p => (p =? -1)%Z) pred) in
    let df := assign set_anomaly_score df (map PrimFloat.opp scores) in
    iterrows df (fun row =>
      update_anomaly_status (id row) (is_anomaly row) (anomaly_score row)) ;;
    ret (filter is_anomaly df).

Definition check_new_expense (now : Calendar.datetime) (uid expense_id : Z)
  : M (bool * float * message) :=
  df <- get_user_expenses now uid 90 ;;
  if (List.length df <? 10)%nat then ret (false, 0%float, NotEnoughData)
  else
    let new_df := filter (fun e => (id e =? expense_id)%Z) df in
    match new_df with
    | [] => ret (false, 0%float, ExpenseNotFound)
    | _ :: _ =>
        let hist := filter (fun e => negb (id e =? expense_id)%Z) df in
        let X_hist := prepare_features hist in
        let X_new := prepare_features new_df in
        ' (scaler, Xs_hist) <- lift (scaler_fit_transform X_hist) ;;
        Xs_new <- lift (scaler_transform scaler X_new) ;;
        let model := model_fit Xs_hist in
        pred <- lift (item0 (map (if_predict L model) (rows Xs_new))) ;;
        s <- lift (item0 (map (if_score_samples L model) (rows Xs_new))) ;;
        let score := (- s)%float in
        let is_anom := (pred =? -1)%Z in
        update_anomaly_status expense_id is_anom score ;;
        row0 <- lift (item0 new_df) ;;
        ret (is_anom, score, _explain row0 hist)
    end.

End AnomalyDetector.

(** ** The Prophet interface *)

(** One row of the frame [model.predict] returns. *)
Record prediction : Type := mkprediction {
  ds : Z;
  yhat : float;
  yhat_lower : float;
  yhat_upper : float
}.

(** What the Stan fit estimates and how a date is turned into a point
    estimate with its interval are the library's business: [prophet_predict]
    may look at the whole frame it is asked about. *)
Record ProphetLib : Type := mkprophet {
  prophet_params : Type;
  prophet_fit : bool -> bool -> bool -> float -> list (Z * float) -> prophet_params;
  prophet_predict : prophet_params -> list Z -> Z -> float * float * float
}.

(** A fitted [Prophet] object. *)
Record Prophet (P : ProphetLib) : Type := mkfitted {
  history_dates : list Z;
  params : prophet_params P
}.

Arguments history_dates {P} _.
Arguments params {P} _.

Fixpoint insert_day (d : Z) (l : list Z) : list Z :=
  match l with
  | [] => [d]
  | x :: tl =>
      if (d =? x)%Z then l
      else if (d <? x)%Z then d :: l
      else x :: insert_day d tl
  end.

Definition sorted_unique (l : list Z) : list Z :=
  fold_left (fun acc d => insert_day d acc) l [].

(** [Series.max()] of a column of days (never empty where it is used). *)
Definition series_max (l : list Z) : Z :=
  match l with
  | [] => 0%Z
  | x :: tl => fold_left Z.max tl x
  end.

(** [Prophet(...).fit(df)]: the rows with a value are the history, and
    Prophet refuses to fit fewer than two of them
    ([ValueError("Dataframe has less than 2 non-NaN rows.")]). *)
Definition Prophet_fit (P : ProphetLib)
  (daily_seasonality weekly_seasonality yearly_seasonality : bool)
  (changepoint_prior_scale : float) (df : list (Z * float)) : result (Prophet P) :=
  let history := filter (fun r => negb (isnan (snd r))) df in
  if (List.length history <? 2)%nat then
    Raise (ValueError "Dataframe has less than 2 non-NaN rows.")
  else
    Return (mkfitted P (sorted_unique (map fst df))
                     (prophet_fit P daily_seasonality weekly_seasonality
                                  yearly_seasonality changepoint_prior_scale history)).

(** [model.make_future_dataframe(periods)]: the history's dates followed by
    the first [periods] days of the daily range from the last of them that lie
    after it. *)
Definition make_future_dataframe {P : ProphetLib} (m : Prophet P) (periods : nat)
  : list Z :=
  let last_date := series_max (history_dates m) in
  let dates := map (fun k => (last_date + Z.of_nat k)%Z) (seq 0 (periods + 1)) in
  let dates := filter (fun d => (last_date <? d)%Z) dates in
  history_dates m ++ firstn periods dates.

Definition Prophet_predict {P : ProphetLib} (m : Prophet P) (future : list Z)
  : list prediction :=
  map (fun d =>
         let '(y, lo, hi) := prophet_predict P (params m) future d in
         mkprediction d y lo hi)
      future.

(** ** Comparisons and masks of pandas *)

(** [col > d] for a datetime64 column [col] and a [datetime.date] [d]:
    [TypeError("Invalid comparison between dtype=datetime64[ns] and date")]. *)
Definition gt_datetime64_date (col : list Z) (d : Z) : result (list bool) :=
  Raise (TypeError "Invalid comparison between dtype=datetime64[ns] and date").

(** [df[mask]]: the rows whose entry in the mask is true. *)
Fixpoint boolean_index {A : Type} (df : list A) (mask : list bool) : list A :=
  match df, mask with
  | r :: df', b :: mask' =>
      if b then r :: boolean_index df' mask' else boolean_index df' mask'
  | _, _ => []
  end.

(** ** The predictive analyzer ([predictive_analyzer.py]) *)

Fixpoint add_to_day (d : Z) (a : float) (l : list (Z * float)) : list (Z * float) :=
  match l with
  | [] => [(d, a)]
  | (d', s) :: tl =>
      if (d =? d')%Z then (d', (s + a)%float) :: tl
      else if (d <? d')%Z then (d, a) :: l
      else (d', s) :: add_to_day d a tl
  end.

(** [_daily_series]: [groupby("date")["amount"].sum()], one row [(ds, y)]
    per day that has a transaction, in increasing order of the day. *)
Definition _daily_series (df : list expense) : list (Z * float) :=
  fold_left (fun acc e => add_to_day (Calendar.date (timestamp e)) (amount e) acc)
            df [].

(** The dictionary [forecast_expenses_prophet] returns. *)
Inductive forecast_result : Type :=
| ForecastFailure (message0 : string) (fs : list forecast_point)
| ForecastSuccess (fs : list forecast_point) (total_predicted : float)
                  (model : string).


(** The dictionary [detect_budget_overrun] returns. *)
Record budget : Type := mkbudget {
  current_spending : float;
  projected_total : float;
  budget_limit : float;
  will_exceed : bool;
  excess_amount : float;
  days_remaining : Z
}.

Section PredictiveAnalyzer.

(** The fields set by [__init__]. *)
Variable P : ProphetLib.
Variable forecast_days : nat.
Variable min_data_points : nat.

(** [fcst["ds"] > ts["ds"].max()]: the left operand is the datetime64
    column of Prophet's frame, the right one a [datetime.date] (the [ds] of
    [_daily_series] comes from [dt.date]). pandas does not compare the two:
    the expression raises [TypeError], whatever the values, and the lines
    after it are not reached. *)
Definition forecast_expenses_prophet (now : Calendar.datetime) (uid : Z)
  : M forecast_result :=
  df <- get_user_expenses now uid 90 ;;
  if (List.length df <? min_data_points)%nat then
    ret (ForecastFailure "Not enough data for forecasting" [])
  else
    let ts := _daily_series df in
    model <- lift (Prophet_fit P true true false 0.05 ts) ;;
    let future := make_future_dataframe model forecast_days in
    let fcst := Prophet_predict model future in
    mask <- lift (gt_datetime64_date (map ds fcst) (series_max (map fst ts))) ;;
    let future_fcst := boolean_index fcst mask in
    let out :=
      map (fun r => mkpoint (ds r) (py_max0 (yhat r)) (py_max0 (yhat_lower r))
                            (py_max0 (yhat_upper r)))
          future_fcst in
    save_forecast now uid out ;;
    ret (ForecastSuccess out (series_sum (map fc_amount out)) "Prophet").

Definition detect_budget_overrun (now : Calendar.datetime) (uid : Z)
  : M (option budget) :=
  prefs <- get_user_preferences uid ;;
  match prefs with
  | None => ret None
  | Some prefs =>
      match monthly_income prefs with
      | None => ret None
      | Some income =>
          if negb (truthy income) then ret None
          else
            df <- get_user_expenses now uid 30 ;;
            let current_total :=
              match df with
              | [] => 0%float
              | _ :: _ => series_sum (map amount df)
              end in
            let today := now in
            let days_passed := Z.max 1 (Calendar.day today) in
            let last_day :=
              Calendar.add_days
                (Calendar.replace_day
                   (Calendar.add_days (Calendar.replace_day today 28) 4) 1)
                (-1) in
            let remaining := Calendar.sub_days last_day today in
            let daily_avg := (current_total / float_of_Z days_passed)%float in
            let projected :=
              (current_total + daily_avg * float_of_Z remaining)%float in
            let budget_limit0 := (income * 0.5)%float in
            ret (Some (mkbudget current_total projected budget_limit0
                                (budget_limit0 <? projected)%float
                                (py_max0 (projected - budget_limit0))
                                remaining))
      end
  end.

End PredictiveAnalyzer.

(** ** Reading of the budget claim

    The specification describes [current_spending] as the spend since the
    first of the current calendar month. That reading, to be compared with
    what [detect_budget_overrun] sums: the user's transactions whose
    timestamp lies in the year and month of the clock reading. *)
Definition spec_month_to_date (now : Calendar.datetime) (uid : Z)
  (table : list expense) : float :=
  series_sum
    (map amount
         (filter (fun e => (user_id e =? uid)%Z
                           && (Calendar.year (timestamp e) =? Calendar.year now)%Z
                           && (Calendar.month (timestamp e) =? Calendar.month now)%Z)
                 table)).

(** ** Contracts of the libraries *)

(** scikit-learn: [score_samples] is the opposite of the anomaly score of
    the isolation-forest paper, [- 2 ** (- E(h(x)) / c(n))], so it is never
    positive. *)
Definition score_samples_nonpositive (L : IsolationForestLib) : Prop :=
  forall (f : forest L) (x : list float), (if_score_samples L f x <=? 0)%float = true.

(** The result of [check_new_expense] when there is too little data. *)
Definition reports_not_enough_data (r : result (bool * float * message)) : bool :=
  match r with
  | Return (_, _, NotEnoughData) => true
  | _ => false
  end.

(** [check_new_expense] got as far as scoring: its message is one of
    [_explain]'s. *)
Definition is_explanation (m : message) : bool :=
  match m with
  | NotEnoughData | ExpenseNotFound => false
  | _ => true
  end.

(** The per-row status update of [detect_anomalies], seen from one row of
    the table. *)
Definition written (row e : expense) : expense :=
  if (id e =? id row)%Z then set_anomaly (is_anomaly row) (anomaly_score row) e else e.

(** ** Instances of the library interfaces and sample data

    The theorems below hold for every implementation of the two interfaces.
    To run the embedding on concrete inputs, two small implementations: a
    forest whose score depends on the standardized amount alone, and a
    forecaster that predicts 5 with the interval from -20 to 30 for every
    day. *)

Module Samples.

Definition amount_forest : IsolationForestLib :=
  mkiforest unit
    (fun _ _ _ _ => tt)
    (fun _ x => if (2 <? abs (hd 0 x))%float then (-0.75)%float else (-0.25)%float)
    (fun _ => (-0.5)%float).

Definition flat_prophet : ProphetLib :=
  mkprophet unit
    (fun _ _ _ _ _ => tt)
    (fun _ _ _ => (5, -20, 30)%float).

(** The clock: 2024-06-10 12:00:00, day 10 of a 30-day month. *)
Definition now0 : Calendar.datetime := Calendar.make 2024 6 10 12 0 0.

(** Expense number [i] of user 1: [amt] rupees of [cat] paid by [pay],
    [back] days before [now0], at nine in the morning. *)
Definition spent (i : Z) (amt : float) (cat pay : string) (back : Z) : expense :=
  mkexpense i 1 amt cat pay ""
            (Calendar.add_days (Calendar.make 2024 6 10 9 0 0) (- back))
            false 0.

(** [n] expenses numbered [first], [first + 1], ..., one per day going back
    from [back] days ago, each of 100 rupees of food paid by UPI. *)
Fixpoint daily_food (n : nat) (first back : Z) : list expense :=
  match n with
  | O => []
  | S n' => spent first 100 "food" "upi" back :: daily_food n' (first + 1) (back + 1)
  end.

(** [n] expenses of the same kind, all made [back] days ago. *)
Fixpoint same_day_food (n : nat) (first back : Z) : list expense :=
  match n with
  | O => []
  | S n' => spent first 100 "food" "upi" back :: same_day_food n' (first + 1) back
  end.

Definition store (es : list expense) (ps : list user_preferences) : database :=
  mkdatabase es ps [].

(** Nine expenses in the window. *)
Definition db_nine : database := store (daily_food 9 1 0) [].

(** Ten expenses in the window: number 1, made today, and nine before it. *)
Definition db_ten : database :=
  store (spent 1 500 "food" "upi" 0 :: daily_food 9 2 1) [].

(** Eleven expenses in the window: number 1 and ten before it. *)
Definition db_eleven : database :=
  store (spent 1 500 "food" "upi" 0 :: daily_food 10 2 1) [].

(** Eleven expenses, the history of number 1 holding two categories and two
    payment methods. *)
Definition db_mixed : database :=
  store (spent 1 500 "food" "upi" 0 :: spent 2 80 "travel" "card" 1
           :: daily_food 9 3 2) [].

(** Thirty expenses on thirty consecutive days, and thirty on one day. *)
Definition db_month : database := store (daily_food 30 1 0) [].
Definition db_one_day : database := store (same_day_food 30 1 0) [].

(** An income of 60000, rent of 15000 paid on 2024-05-25 and food of 5000
    bought on 2024-06-05. *)
Definition db_budget : database :=
  store [spent 1 15000 "rent" "upi" 16; spent 2 5000 "food" "upi" 5]
        [mkprefs 1 (Some 60000%float) None None true].

(** The same expenses with a declared income of zero. *)
Definition db_zero_income : database :=
  store [spent 1 15000 "rent" "upi" 16; spent 2 5000 "food" "upi" 5]
        [mkprefs 1 (Some 0%float) None None true].

(** Four food expenses of 100 each. *)
Definition hist100 : list expense := daily_food 4 2 1.

End Samples.

(** ** The rest of the store ([database.py]) *)

(** The key [AUTOINCREMENT] gives a new row: one more than the largest key
    in the table (the first key is 1; no statement of the program deletes a
    row, so the largest key ever used is the largest in the table). *)
Definition next_id (table : list expense) : Z :=
  (fold_left Z.max (map id table) 0 + 1)%Z.

(** [add_expense]: one inserted row, its key chosen by the table, its
    timestamp the clock reading ([CURRENT_TIMESTAMP]), not an anomaly and
    with score 0.0 (the column defaults); the key is returned
    ([cursor.lastrowid]). This is the INSERT that SQLite accepts
    ([insert_is_accepted] below): a NaN amount is bound as NULL and refused
    by [amount REAL NOT NULL], and a key or a user id beyond 64 bits is
    refused as well; the method then raises and inserts nothing. *)
Definition add_expense (now : Calendar.datetime) (uid : Z) (amt : float)
  (cat pay desc : string) : M Z :=
  fun db =>
    let i := next_id (expenses db) in
    (Return i,
     mkdatabase (expenses db ++ [mkexpense i uid amt cat pay desc now false 0%float])
                (preferences db) (forecasts db)).

(** SQL's [COALESCE(new, old)]. *)
Definition coalesce {A : Type} (new old : option A) : option A :=
  match new with
  | Some _ => new
  | None => old
  end.

(** What SQLite stores for a bound float: NaN is stored as NULL, like
    [None]. *)
Definition sql_real (x : option float) : option float :=
  match x with
  | Some v => if isnan v then None else Some v
  | None => None
  end.

(** [set_user_preferences]: [INSERT ... ON CONFLICT(user_id) DO UPDATE SET
    c = COALESCE(?, c)] for the three columns; a new row gets the default
    [notification_enabled = 1]. *)
Definition set_user_preferences (uid : Z) (income goal : option float)
  (risk : option string) : M unit :=
  fun db =>
    (Return tt,
     mkdatabase (expenses db)
       (if existsb (fun p => (prefs_user_id p =? uid)%Z) (preferences db)
        then map (fun p =>
                    if (prefs_user_id p =? uid)%Z
                    then mkprefs (prefs_user_id p)
                                 (coalesce (sql_real income) (monthly_income p))
                                 (coalesce (sql_real goal) (savings_goal p))
                                 (coalesce risk (risk_tolerance p))
                                 (notification_enabled p)
                    else p)
                 (preferences db)
        else preferences db
             ++ [mkprefs uid (sql_real income) (sql_real goal) risk true])
       (forecasts db)).

(** ** The forecast by category ([predictive_analyzer.py]) *)

(** [Series.unique()]: the distinct values in order of first appearance. *)
Fixpoint unique (l : list string) : list string :=
  match l with
  | [] => []
  | x :: tl => x :: filter (fun y => negb (String.eqb y x)) (unique tl)
  end.

(** One value of the [category_forecasts] dictionary. *)
Record category_forecast : Type := mkcategory_forecast {
  cf_predicted_total : float;
  daily_average : float;
  volatility : float
}.

(** [d[k] = v] on a dictionary kept as the list of its items in insertion
    order. *)
Fixpoint dict_set {V : Type} (d : list (string * V)) (k : string) (v : V)
  : list (string * V) :=
  match d with
  | [] => [(k, v)]
  | (k', v') :: tl =>
      if String.eqb k' k then (k', v) :: tl else (k', v') :: dict_set tl k v
  end.

(** The dictionary [forecast_by_category] returns. *)
Inductive category_result : Type :=
| CategoryFailure (message0 : string)
| CategorySuccess (category_forecasts : list (string * category_forecast))
                  (total_predicted : float).

Section ForecastByCategory.

Variable forecast_days : nat.
Variable min_data_points : nat.

(** The body of the loop over the categories. *)
Definition category_step (df : list expense)
  (summary : list (string * category_forecast)) (c : string)
  : list (string * category_forecast) :=
  let cdf := filter (fun e => String.eqb (category e) c) df in
  if (List.length cdf <? 10)%nat then summary
  else
    let ts := _daily_series cdf in
    let avg := series_mean (map snd ts) in
    let std := series_std 0 (map snd ts) in
    dict_set summary c
             (mkcategory_forecast (avg * float_of_nat forecast_days)%float avg std).

Definition forecast_by_category (now : Calendar.datetime) (uid : Z)
  : M category_result :=
  df <- get_user_expenses now uid 90 ;;
  if (List.length df <? min_data_points)%nat then
    ret (CategoryFailure "Not enough data")
  else
    let cats := unique (map category df) in
    let summary := fold_left (category_step df) cats [] in
    ret (CategorySuccess summary
           (series_sum (map (fun kv => cf_predicted_total (snd kv)) summary))).

End ForecastByCategory.

(** ** The spending summary ([ai_financial_advisor.py]) *)

Fixpoint add_to_key (k : string) (a : float) (l : list (string * float))
  : list (string * float) :=
  match l with
  | [] => [(k, a)]
  | (k', s) :: tl =>
      match String.compare k k' with
      | Eq => (k', (s + a)%float) :: tl
      | Lt => (k, a) :: l
      | Gt => (k', s) :: add_to_key k a tl
      end
  end.

(** [df.groupby(key)["amount"].sum().to_dict()]: one item per value of the
    key, in sorted order of the key. *)
Definition groupby_sum (key : expense -> string) (df : list expense)
  : list (string * float) :=
  fold_left (fun acc e => add_to_key (key e) (amount e) acc) df [].

(** The dictionary [get_spending_summary] returns; [summary_preferences] is
    [None] for the empty dictionary that stands in for a missing row. *)
Record spending_summary : Type := mksummary {
  total_spending_90days : float;
  monthly_average : float;
  category_spending : list (string * float);
  category_percentages : list (string * float);
  payment_breakdown : list (string * float);
  anomalies_detected : nat;
  summary_preferences : option user_preferences
}.

Definition get_spending_summary (now : Calendar.datetime) (uid : Z)
  : M spending_summary :=
  df <- get_user_expenses now uid 90 ;;
  prefs <- get_user_preferences uid ;;
  let empty := match df with [] => true | _ :: _ => false end in
  let total := if empty then 0%float else series_sum (map amount df) in
  let monthly_avg := if (0 <? total)%float then (total / 3)%float else 0%float in
  let by_cat := if empty then [] else groupby_sum category df in
  let cat_pct :=
    if (0 <? total)%float
    then map (fun kv => (fst kv, (snd kv / total * 100)%float)) by_cat
    else [] in
  let by_pay := if empty then [] else groupby_sum payment_method df in
  let anomalies := List.length (filter is_anomaly df) in
  ret (mksummary total monthly_avg by_cat cat_pct by_pay anomalies prefs).

(** ** Recording an expense ([telegram_bot.py])

    What the message handler [add_expense] does with the store and the
    detector once the text is parsed: it inserts the expense (at the clock
    reading [t]) and checks it (at the later reading [now]). *)
Definition record_expense (L : IsolationForestLib) (contamination : float)
  (t now : Calendar.datetime) (uid : Z) (amt : float) (cat pay desc : string)
  : M (Z * (bool * float * message)) :=
  exp_id <- add_expense t uid amt cat pay desc ;;
  r <- check_new_expense L contamination now uid exp_id ;;
  ret (exp_id, r).

(** ** Orders and invariants used below *)

(** Newest first. *)
Definition newer_or_same (a b : expense) : Prop :=
  (Calendar.total_seconds (timestamp b) <= Calendar.total_seconds (timestamp a))%Z.

(** The row of the window of [now], [days] that a row of user [uid] is in. *)
Definition in_window (now : Calendar.datetime) (uid days : Z) (e : expense) : bool :=
  (user_id e =? uid)%Z && Calendar.leb (Calendar.add_days now (- days)) (timestamp e).

(** A Python [datetime]: a day of the years 1 to 9999 and a time of day. *)
Definition is_datetime (t : Calendar.datetime) : Prop :=
  (1 <= Calendar.toordinal t <= 3652059)%Z /\ (0 <= Calendar.seconds t < 86400)%Z.

(** A window SQLite can compute: the clock reading is a [datetime], the
    number of days is not negative and the window starts within the
    calendar. *)
Definition window_is_valid (now : Calendar.datetime) (days : Z) : Prop :=
  is_datetime now /\ (0 <= days < Calendar.toordinal now)%Z.

(** An integer SQLite can store. *)
Definition is_int64 (z : Z) : Prop :=
  (- 9223372036854775808 <= z <= 9223372036854775807)%Z.

(** The parameters the INSERT of [add_expense] accepts on a table: a user
    id of 64 bits, an amount that is a number, and a next key of 64 bits. *)
Definition insert_is_accepted (uid : Z) (amt : float) (table : list expense) : Prop :=
  is_int64 uid /\ isnan amt = false /\ is_int64 (next_id table).

(** Two rows that agree on every column but the anomaly status. *)
Definition same_transaction (e e' : expense) : Prop :=
  id e' = id e /\ user_id e' = user_id e /\ amount e' = amount e
  /\ category e' = category e /\ payment_method e' = payment_method e
  /\ description e' = description e /\ timestamp e' = timestamp e.

(** The frame [detect_anomalies] holds after its two column assignments:
    the window with the status the fitted forest gives each row. *)
Definition scored_frame (L : IsolationForestLib) (contamination : float)
  (df : list expense) : list expense :=
  match scaler_fit_transform (prepare_features df) with
  | Return (_, Xs) =>
      let model := model_fit L contamination Xs in
      let pred := map (if_predict L model) (rows Xs) in
      let scores := map (if_score_samples L model) (rows Xs) in
      assign set_anomaly_score
             (assign set_is_anomaly df (map (fun p => (p =? -1)%Z) pred))
             (map PrimFloat.opp scores)
  | Raise _ => df
  end.

(** A sample store with preferences and an anomaly already flagged. *)
Definition db_flagged : database :=
  mkdatabase
    [Samples.spent 1 500 "food" "upi" 0;
     mkexpense 2 1 80 "travel" "card" "" (Calendar.make 2024 6 9 9 0 0) true 0.75%float;
     mkexpense 3 2 60 "food" "cash" "" (Calendar.make 2024 6 8 9 0 0) false 0%float]
    [mkprefs 1 (Some 60000%float) (Some 5000%float) None true]
    [].

(** * Properties *)

(** ** Comparisons of floats *)

Section FloatFacts.

Local Open Scope float_scope.

Lemma Prim2SF_zero : Prim2SF 0 = S754_zero false.
Proof. reflexivity. Qed.

Lemma ltb_leb (x y : float) : (x <? y) = true -> (x <=? y) = true.
Proof.
  rewrite ltb_spec, leb_spec. unfold SFltb, SFleb.
  destruct (SFcompare (Prim2SF x) (Prim2SF y)) as [[ | | ] | ]; congruence.
Qed.

(** Anything that is at least a positive number is positive. *)
Lemma pos_leb_pos (a b : float) :
  (0 <? a) = true -> (a <=? b) = true -> (0 <? b) = true.
Proof.
  rewrite !ltb_spec, leb_spec, Prim2SF_zero. unfold SFltb, SFleb.
  destruct (Prim2SF a) as [sa | sa | | sa ma ea];
    destruct (Prim2SF b) as [sb | sb | | sb mb eb]; simpl;
    try destruct sa; try destruct sb; simpl; try congruence.
Qed.

Lemma py_max0_nonneg (x : float) : (0 <=? py_max0 x) = true.
Proof.
  unfold py_max0. destruct (0 <? x) eqn:E.
  - now apply ltb_leb.
  - reflexivity.
Qed.

Lemma py_max0_mono (a b : float) :
  (a <=? b) = true -> (py_max0 a <=? py_max0 b) = true.
Proof.
  intros Hab. unfold py_max0 at 1. destruct (0 <? a) eqn:Ea.
  - unfold py_max0. now rewrite (pos_leb_pos a b Ea Hab).
  - apply py_max0_nonneg.
Qed.

(** The opposite of a non-positive number is non-negative. *)
Lemma opp_nonneg (s : float) : (s <=? 0) = true -> (0 <=? - s) = true.
Proof.
  rewrite !leb_spec, opp_spec, Prim2SF_zero. unfold SFleb.
  destruct (Prim2SF s) as [sa | sa | | sa ma ea]; simpl;
    try destruct sa; simpl; congruence.
Qed.

End FloatFacts.

(** ** The cold-start gate of the anomaly detector *)

Section Gate.

Variable L : IsolationForestLib.
Variable contamination : float.

Lemma detect_anomalies_short (now : Calendar.datetime) (uid : Z) (db : database) :
  (List.length (select_user_expenses now uid 90 (expenses db)) < 10)%nat ->
  detect_anomalies L contamination now uid db = (Return [], db).
Proof.
  intros Hlen. unfold detect_anomalies, bind, get_user_expenses.
  apply Nat.ltb_lt in Hlen. now rewrite Hlen.
Qed.

Lemma check_new_expense_short (now : Calendar.datetime) (uid eid : Z) (db : database) :
  (List.length (select_user_expenses now uid 90 (expenses db)) < 10)%nat ->
  check_new_expense L contamination now uid eid db
  = (Return (false, 0%float, NotEnoughData), db).
Proof.
  intros Hlen. unfold check_new_expense, bind, get_user_expenses.
  apply Nat.ltb_lt in Hlen. now rewrite Hlen.
Qed.

Lemma _explain_is_explanation (e : expense) (hist : list expense) :
  is_explanation (_explain e hist) = true.
Proof.
  unfold _explain.
  destruct (3 <=? _)%nat; [ | reflexivity ].
  destruct (_ <? amount e)%float; [ reflexivity | ].
  destruct (amount e <? _)%float; reflexivity.
Qed.

(** What [check_new_expense] does once the window holds ten rows and one of
    them is the target: it raises, or it writes the target's status and
    returns one of [_explain]'s messages. *)
Lemma check_new_expense_scoring (now : Calendar.datetime) (uid eid : Z)
  (db : database) (x : expense) (new_df : list expense) :
  let df := select_user_expenses now uid 90 (expenses db) in
  (10 <= List.length df)%nat ->
  filter (fun e => (id e =? eid)%Z) df = x :: new_df ->
  (exists e, check_new_expense L contamination now uid eid db = (Raise e, db))
  \/ (exists a s,
        check_new_expense L contamination now uid eid db
        = (Return (a, s, _explain x (filter (fun e => negb (id e =? eid)%Z) df)),
           snd (update_anomaly_status eid a s db))
        /\ exists (f : forest L) (r : list float),
             s = (- if_score_samples L f r)%float).
Proof.
  intros df Hlen Hnew. unfold check_new_expense, bind, get_user_expenses.
  fold df. apply Nat.ltb_ge in Hlen. rewrite Hlen, Hnew. unfold lift.
  destruct (scaler_fit_transform _) as [[sc Xs_hist] | e0]; [ | left; now exists e0 ].
  destruct (scaler_transform sc _) as [Xs_new | e1]; [ | left; now exists e1 ].
  destruct (rows Xs_new) as [ | r rs ]; simpl.
  - left. eexists. reflexivity.
  - right. do 2 eexists. split; [ reflexivity | ]. do 2 eexists. reflexivity.
Qed.

End Gate.

(** C8. A user with fewer than ten transactions in the 90-day window: 
    [detect_anomalies] returns the empty frame and leaves the store as it
    was, and [check_new_expense] answers, for every transaction id, no
    anomaly with score 0 and the not-enough-data message, the store again
    untouched. *)
Theorem cold_start_reports_nothing :
  forall (L : IsolationForestLib) (contamination : float)
         (now : Calendar.datetime) (uid : Z) (db : database),
    (List.length (select_user_expenses now uid 90 (expenses db)) < 10)%nat ->
    detect_anomalies L contamination now uid db = (Return [], db)
    /\ forall eid : Z,
         check_new_expense L contamination now uid eid db
         = (Return (false, 0%float, NotEnoughData), db).
Proof.
  intros L c now uid db Hlen. split.
  - now apply detect_anomalies_short.
  - intros eid. now apply check_new_expense_short.
Qed.

Lemma cold_start_reports_nothing_witness :
  (List.length (select_user_expenses Samples.now0 1 90 (expenses Samples.db_nine)) < 10)%nat
  /\ detect_anomalies Samples.amount_forest ANOMALY_CONTAMINATION Samples.now0 1
                      Samples.db_nine
     = (Return [], Samples.db_nine)
  /\ check_new_expense Samples.amount_forest ANOMALY_CONTAMINATION Samples.now0 1 1
                       Samples.db_nine
     = (Return (false, 0%float, NotEnoughData), Samples.db_nine).
Proof.
  assert (H : (List.length (select_user_expenses Samples.now0 1 90
                              (expenses Samples.db_nine)) < 10)%nat)
    by (vm_compute; lia).
  split; [ exact H | ].
  destruct (cold_start_reports_nothing Samples.amount_forest ANOMALY_CONTAMINATION
              Samples.now0 1 Samples.db_nine H) as [Hd Hc].
  split; [ exact Hd | exact (Hc 1%Z) ].
Defined.

(** C10. [detect_budget_overrun] returns [None], reading nothing else and
    writing nothing, when the user has no preferences row, when the row has
    no monthly income, and also when the income on file is zero. *)
Theorem zero_income_is_no_income :
  forall (now : Calendar.datetime) (uid : Z) (db : database),
    (select_user_preferences uid (preferences db) = None
     \/ exists p : user_preferences,
          select_user_preferences uid (preferences db) = Some p
          /\ (monthly_income p = None \/ monthly_income p = Some 0%float)) ->
    detect_budget_overrun now uid db = (Return None, db).
Proof.
  intros now uid db H.
  unfold detect_budget_overrun, bind, get_user_preferences.
  destruct H as [H | [p [H [Hi | Hi]]]]; rewrite H; try reflexivity;
    rewrite Hi; reflexivity.
Qed.

Lemma zero_income_is_no_income_witness :
  (exists p : user_preferences,
     select_user_preferences 1 (preferences Samples.db_zero_income) = Some p
     /\ monthly_income p = Some 0%float)
  /\ detect_budget_overrun Samples.now0 1 Samples.db_zero_income
     = (Return None, Samples.db_zero_income).
Proof.
  split.
  - eexists. split; reflexivity.
  - apply zero_income_is_no_income. right. eexists.
    split; [ reflexivity | right; reflexivity ].
Defined.

(** ** The write of [check_new_expense] *)

Lemma update_anomaly_status_frame (eid : Z) (a : bool) (s : float) (db : database) :
  let db' := snd (update_anomaly_status eid a s db) in
  preferences db' = preferences db
  /\ forecasts db' = forecasts db
  /\ List.length (expenses db') = List.length (expenses db)
  /\ forall (i : nat) (e : expense),
       nth_error (expenses db) i = Some e ->
       nth_error (expenses db') i
       = Some (if (id e =? eid)%Z then set_anomaly a s e else e).
Proof.
  simpl. repeat split.
  - apply length_map.
  - intros i e Hi. rewrite nth_error_map, Hi. reflexivity.
Qed.

(** C9. When [check_new_expense] has scored the target (it returns one of
    [_explain]'s messages), the store it leaves is the one it found with a
    single [update_anomaly_status] applied: preferences and forecasts are the
    same, the expenses table has the same rows in the same places, a row
    with another id is unchanged, and a row with the target's id differs in
    [is_anomaly] and [anomaly_score] only, which hold the returned values. *)
Theorem check_new_expense_writes_the_target_only :
  forall (L : IsolationForestLib) (contamination : float)
         (now : Calendar.datetime) (uid eid : Z) (db db' : database)
         (a : bool) (s : float) (m : message),
    check_new_expense L contamination now uid eid db = (Return (a, s, m), db') ->
    is_explanation m = true ->
    preferences db' = preferences db
    /\ forecasts db' = forecasts db
    /\ List.length (expenses db') = List.length (expenses db)
    /\ forall (i : nat) (e : expense),
         nth_error (expenses db) i = Some e ->
         nth_error (expenses db') i
         = Some (if (id e =? eid)%Z
                 then mkexpense (id e) (user_id e) (amount e) (category e)
                                (payment_method e) (description e) (timestamp e) a s
                 else e).
Proof.
  intros L c now uid eid db db' a s m Hrun Hm.
  destruct (Nat.ltb_spec (List.length (select_user_expenses now uid 90 (expenses db))) 10)
    as [Hlen | Hlen].
  - rewrite (check_new_expense_short L c now uid eid db Hlen) in Hrun.
    injection Hrun as _ _ Hmsg _. subst m. discriminate Hm.
  - destruct (filter (fun e => (id e =? eid)%Z)
                     (select_user_expenses now uid 90 (expenses db)))
      as [ | x new_df ] eqn:Hnew.
    + unfold check_new_expense, bind, get_user_expenses in Hrun.
      apply Nat.ltb_ge in Hlen. rewrite Hlen, Hnew in Hrun.
      injection Hrun as _ _ Hmsg _. subst m. discriminate Hm.
    + destruct (check_new_expense_scoring L c now uid eid db x new_df Hlen Hnew)
        as [[e He] | [a0 [s0 [Hr _]]]].
      * rewrite He in Hrun. discriminate Hrun.
      * rewrite Hr in Hrun. injection Hrun as Ha Hs _ Hdb. subst a0 s0 db'.
        apply update_anomaly_status_frame.
Qed.

Lemma check_new_expense_writes_the_target_only_witness :
  check_new_expense Samples.amount_forest ANOMALY_CONTAMINATION Samples.now0 1 1
                    Samples.db_eleven
  = (Return (true, 0.75%float, SignificantlyHigher "food" 500 100),
     snd (update_anomaly_status 1 true 0.75 Samples.db_eleven))
  /\ nth_error (expenses (snd (update_anomaly_status 1 true 0.75 Samples.db_eleven))) 1
     = Some (Samples.spent 2 100 "food" "upi" 1).
Proof.
  assert (H : check_new_expense Samples.amount_forest ANOMALY_CONTAMINATION
                Samples.now0 1 1 Samples.db_eleven
              = (Return (true, 0.75%float, SignificantlyHigher "food" 500 100),
                 snd (update_anomaly_status 1 true 0.75 Samples.db_eleven)))
    by (vm_compute; reflexivity).
  split; [ exact H | ].
  destruct (check_new_expense_writes_the_target_only _ _ _ _ _ _ _ _ _ _ H eq_refl)
    as [_ [_ [_ Hrows]]].
  exact (Hrows 1%nat (Samples.spent 2 100 "food" "upi" 1) eq_refl).
Defined.

(** Whatever else [check_new_expense] returns, it has written nothing. *)
Lemma check_new_expense_not_scored (L : IsolationForestLib) (contamination : float)
  (now : Calendar.datetime) (uid eid : Z) (db db' : database)
  (a : bool) (s : float) (m : message) :
  check_new_expense L contamination now uid eid db = (Return (a, s, m), db') ->
  is_explanation m = false ->
  db' = db /\ a = false /\ s = 0%float.
Proof.
  intros Hrun Hm.
  destruct (Nat.ltb_spec (List.length (select_user_expenses now uid 90 (expenses db))) 10)
    as [Hlen | Hlen].
  - rewrite (check_new_expense_short L contamination now uid eid db Hlen) in Hrun.
    injection Hrun as Ha Hs _ Hdb. now subst.
  - destruct (filter (fun e => (id e =? eid)%Z)
                     (select_user_expenses now uid 90 (expenses db)))
      as [ | x new_df ] eqn:Hnew.
    + unfold check_new_expense, bind, get_user_expenses in Hrun.
      apply Nat.ltb_ge in Hlen. rewrite Hlen, Hnew in Hrun.
      injection Hrun as Ha Hs _ Hdb. now subst.
    + destruct (check_new_expense_scoring L contamination now uid eid db x new_df Hlen Hnew)
        as [[e He] | [a0 [s0 [Hr _]]]].
      * rewrite He in Hrun. discriminate Hrun.
      * rewrite Hr in Hrun. injection Hrun as _ _ Hmsg _. subst m.
        now rewrite _explain_is_explanation in Hm.
Qed.

(** ** The one-hot vocabulary of history and target *)

Lemma scaler_fit_transform_returns (X : ndarray) :
  exists Xs : ndarray,
    scaler_fit_transform X = Return (scaler_fit X, Xs)
    /\ List.length (rows Xs) = List.length (rows X).
Proof.
  unfold scaler_fit_transform, scaler_transform. simpl.
  rewrite Nat.eqb_refl. eexists. split; [ reflexivity | ]. simpl. apply length_map.
Qed.

Lemma scaler_transform_mismatch (X_fit X : ndarray) :
  ncols X <> ncols X_fit ->
  scaler_transform (scaler_fit X_fit) X
  = Raise (ValueError ("X has " ++ str (ncols X)
                       ++ " features, but StandardScaler is expecting "
                       ++ str (ncols X_fit) ++ " features as input.")).
Proof.
  intros H. unfold scaler_transform, scaler_fit. cbn [n_features_in_].
  apply Nat.eqb_neq in H. now rewrite H.
Qed.

(** A target whose feature row is not as wide as the rows of its history
    makes [check_new_expense] raise: the scaler fit on the history refuses
    it, and nothing catches the exception. *)
Lemma vocabulary_mismatch_raises (L : IsolationForestLib) (contamination : float)
  (now : Calendar.datetime) (uid eid : Z) (db : database)
  (x : expense) (new_df : list expense) :
  let df := select_user_expenses now uid 90 (expenses db) in
  (10 <= List.length df)%nat ->
  filter (fun e => (id e =? eid)%Z) df = x :: new_df ->
  ncols (prepare_features (x :: new_df))
  <> ncols (prepare_features (filter (fun e => negb (id e =? eid)%Z) df)) ->
  is_raise (fst (check_new_expense L contamination now uid eid db)) = true
  /\ snd (check_new_expense L contamination now uid eid db) = db.
Proof.
  intros df Hlen Hnew Hcols. unfold check_new_expense, bind, get_user_expenses.
  fold df. apply Nat.ltb_ge in Hlen. rewrite Hlen, Hnew. unfold lift.
  destruct (scaler_fit_transform_returns
              (prepare_features (filter (fun e => negb (id e =? eid)%Z) df)))
    as [Xs [HXs _]].
  rewrite HXs, (scaler_transform_mismatch _ _ Hcols). now split.
Qed.

(** C1, at a failing input. Eleven transactions in the window; the ten that
    form the history of transaction 1 hold two categories and two payment
    methods, so the history has eight feature columns and the target six.
    Whatever the forest, [check_new_expense] raises [ValueError]. *)
Theorem mixed_history_raises :
  forall (L : IsolationForestLib) (contamination : float),
    List.length (select_user_expenses Samples.now0 1 90 (expenses Samples.db_mixed))
    = 11%nat
    /\ ncols (prepare_features
                (filter (fun e => negb (id e =? 1)%Z)
                        (select_user_expenses Samples.now0 1 90
                                              (expenses Samples.db_mixed)))) = 8%nat
    /\ ncols (prepare_features
                (filter (fun e => (id e =? 1)%Z)
                        (select_user_expenses Samples.now0 1 90
                                              (expenses Samples.db_mixed)))) = 6%nat
    /\ check_new_expense L contamination Samples.now0 1 1 Samples.db_mixed
       = (Raise (ValueError
                   "X has 6 features, but StandardScaler is expecting 8 features as input."),
          Samples.db_mixed).
Proof.
  intros L c. repeat split; vm_compute; reflexivity.
Qed.

(** C2, as the code has it. The gate of [check_new_expense] counts every
    transaction of the window, the one being checked included: below ten it
    returns the not-enough-data result; from ten on it never does. The
    window then splits into the target and the other transactions (nine of
    them when the window holds ten and one is the target); a missing target
    is reported as not found; and a target whose feature row is as wide as
    the rows of the others is scored against them: scaler and forest are
    fit on the others, the target's standardized row is given to the
    forest, and the label, the score and [_explain]'s message are returned
    with the status written to the target's row. *)
Theorem gate_counts_the_target_too :
  forall (L : IsolationForestLib) (contamination : float)
         (now : Calendar.datetime) (uid eid : Z) (db : database),
    let df := select_user_expenses now uid 90 (expenses db) in
    let new_df := filter (fun e => (id e =? eid)%Z) df in
    let hist := filter (fun e => negb (id e =? eid)%Z) df in
    ((List.length df < 10)%nat ->
     check_new_expense L contamination now uid eid db
     = (Return (false, 0%float, NotEnoughData), db))
    /\ ((10 <= List.length df)%nat ->
        reports_not_enough_data
          (fst (check_new_expense L contamination now uid eid db)) = false
        /\ (List.length new_df + List.length hist = List.length df)%nat
        /\ (new_df = [] ->
            check_new_expense L contamination now uid eid db
            = (Return (false, 0%float, ExpenseNotFound), db))
        /\ forall (x : expense) (rest : list expense),
             new_df = x :: rest ->
             ncols (prepare_features new_df) = ncols (prepare_features hist) ->
             exists (Xs_hist Xs_new : ndarray) (r : list float),
               scaler_fit_transform (prepare_features hist)
               = Return (scaler_fit (prepare_features hist), Xs_hist)
               /\ List.length (rows Xs_hist) = List.length hist
               /\ scaler_transform (scaler_fit (prepare_features hist))
                                   (prepare_features new_df) = Return Xs_new
               /\ hd_error (rows Xs_new) = Some r
               /\ let model := model_fit L contamination Xs_hist in
                  let is_anom := (if_predict L model r =? -1)%Z in
                  let score := (- if_score_samples L model r)%float in
                  check_new_expense L contamination now uid eid db
                  = (Return (is_anom, score, _explain x hist),
                     snd (update_anomaly_status eid is_anom score db))).
Proof.
  intros L c now uid eid db df new_df hist. split.
  - intros Hlen. now apply check_new_expense_short.
  - intros Hlen. split; [ | split; [ | split ] ].
    + destruct (filter (fun e => (id e =? eid)%Z) df) as [ | x rest ] eqn:Hnew.
      * unfold check_new_expense, bind, get_user_expenses. fold df.
        apply Nat.ltb_ge in Hlen. now rewrite Hlen, Hnew.
      * destruct (check_new_expense_scoring L c now uid eid db x rest Hlen Hnew)
          as [[e He] | [a [s [Hr _]]]].
        -- now rewrite He.
        -- rewrite Hr. simpl.
           pose proof (_explain_is_explanation x
                         (filter (fun e => negb (id e =? eid)%Z)
                                 (select_user_expenses now uid 90 (expenses db)))) as Hx.
           destruct (_explain x _); simpl in Hx; congruence.
    + apply filter_length.
    + intros Hnone. unfold check_new_expense, bind, get_user_expenses. fold df new_df.
      apply Nat.ltb_ge in Hlen. now rewrite Hlen, Hnone.
    + intros x rest Hnew Hcols. unfold new_df in Hnew, Hcols |- *.
      rewrite Hnew in Hcols |- *.
      destruct (scaler_fit_transform_returns (prepare_features hist))
        as [Xs_hist [HXs HlenXs]].
      assert (Htr : scaler_transform (scaler_fit (prepare_features hist))
                                     (prepare_features (x :: rest))
                    = Return (mkarray (ncols (prepare_features (x :: rest)))
                                (map (fun r => standardize r
                                                 (mean_ (scaler_fit (prepare_features hist)))
                                                 (scale_ (scaler_fit (prepare_features hist))))
                                     (rows (prepare_features (x :: rest)))))).
      { unfold scaler_transform. cbn [scaler_fit n_features_in_].
        now rewrite Hcols, Nat.eqb_refl. }
      exists Xs_hist. eexists. eexists.
      split; [ exact HXs | ]. split.
      { rewrite HlenXs. unfold prepare_features. cbn [rows]. apply length_map. }
      split; [ exact Htr | ].
      split; [ unfold prepare_features; cbn [rows map hd_error]; reflexivity | ].
      cbn zeta. unfold check_new_expense, bind, get_user_expenses. fold df.
      apply Nat.ltb_ge in Hlen. rewrite Hlen, Hnew. unfold lift. fold hist.
      rewrite HXs, Htr. reflexivity.
Qed.

Lemma gate_counts_the_target_too_witness :
  (10 <= List.length (select_user_expenses Samples.now0 1 90 (expenses Samples.db_ten)))%nat
  /\ reports_not_enough_data
       (fst (check_new_expense Samples.amount_forest ANOMALY_CONTAMINATION
                               Samples.now0 1 1 Samples.db_ten)) = false
  /\ exists (is_anom : bool) (score : float) (m : message),
       check_new_expense Samples.amount_forest ANOMALY_CONTAMINATION
                         Samples.now0 1 1 Samples.db_ten
       = (Return (is_anom, score, m),
          snd (update_anomaly_status 1 is_anom score Samples.db_ten)).
Proof.
  assert (H : (10 <= List.length (select_user_expenses Samples.now0 1 90
                                    (expenses Samples.db_ten)))%nat)
    by (vm_compute; lia).
  split; [ exact H | ].
  destruct (proj2 (gate_counts_the_target_too Samples.amount_forest
                     ANOMALY_CONTAMINATION Samples.now0 1 1 Samples.db_ten) H)
    as [Hgate [_ [_ Hscored]]].
  split; [ exact Hgate | ].
  destruct (Hscored (Samples.spent 1 500 "food" "upi" 0) [] eq_refl eq_refl)
    as [Xs_hist [Xs_new [r [_ [_ [_ [_ Hrun]]]]]]].
  do 3 eexists. exact Hrun.
Defined.

(** C2 as stated fails: ten transactions in the window, the target and nine
    before it, and the target is scored (here: flagged, with score 0.75). *)
Lemma nine_prior_is_scored :
  List.length (select_user_expenses Samples.now0 1 90 (expenses Samples.db_ten)) = 10%nat
  /\ List.length (filter (fun e => negb (id e =? 1)%Z)
                    (select_user_expenses Samples.now0 1 90 (expenses Samples.db_ten)))
     = 9%nat
  /\ fst (check_new_expense Samples.amount_forest ANOMALY_CONTAMINATION
                            Samples.now0 1 1 Samples.db_ten)
     = Return (true, 0.75%float, SignificantlyHigher "food" 500 100).
Proof. vm_compute. repeat split. Qed.

(** ** The explanation at zero spread *)

(** C4, as the code has it. With a category history of four amounts of 100
    (mean 100, population standard deviation 0) the threshold [avg + 2 * std]
    is 100 itself and the comparison is strict with no tolerance: [_explain]
    returns the higher-than-usual message exactly for the amounts above 100
    (100.01 as much as 500), the unusually-low one for those below, and the
    generic one at 100. *)
Theorem zero_spread_threshold_is_the_mean :
  forall (target : expense) (hist : list expense),
    map amount (filter (fun e => String.eqb (category e) (category target)) hist)
    = [100; 100; 100; 100]%float ->
    _explain target hist
    = if (100 <? amount target)%float
      then SignificantlyHigher (category target) (amount target) 100
      else if (amount target <? 100)%float
           then UnusuallyLow (category target) (amount target)
           else UnusualPattern.
Proof.
  intros target hist H. unfold _explain.
  assert (Hlen : List.length (filter (fun e => String.eqb (category e) (category target))
                                     hist) = 4%nat).
  { rewrite <- (length_map amount), H. reflexivity. }
  rewrite Hlen, H. cbn [Nat.leb].
  change (series_mean [100; 100; 100; 100]%float) with 100%float.
  change (series_std 0 [100; 100; 100; 100]%float) with 0%float.
  change (100 + 2 * 0)%float with 100%float.
  change (100 - 2 * 0)%float with 100%float.
  reflexivity.
Qed.

Lemma zero_spread_threshold_is_the_mean_witness :
  map amount (filter (fun e => String.eqb (category e) "food") Samples.hist100)
  = [100; 100; 100; 100]%float
  /\ _explain (Samples.spent 1 100.01 "food" "upi" 0) Samples.hist100
     = SignificantlyHigher "food" 100.01 100
  /\ _explain (Samples.spent 1 500 "food" "upi" 0) Samples.hist100
     = SignificantlyHigher "food" 500 100
  /\ _explain (Samples.spent 1 100 "food" "upi" 0) Samples.hist100
     = UnusualPattern.
Proof.
  assert (H : map amount (filter (fun e => String.eqb (category e) "food")
                                 Samples.hist100)
              = [100; 100; 100; 100]%float) by reflexivity.
  split; [ exact H | ].
  split; [ | split ].
  - exact (zero_spread_threshold_is_the_mean
             (Samples.spent 1 100.01 "food" "upi" 0) Samples.hist100 H).
  - exact (zero_spread_threshold_is_the_mean
             (Samples.spent 1 500 "food" "upi" 0) Samples.hist100 H).
  - exact (zero_spread_threshold_is_the_mean
             (Samples.spent 1 100 "food" "upi" 0) Samples.hist100 H).
Defined.

(** C4 as stated fails: on the history [100, 100, 100, 100] an amount of
    100.01 does get the higher-than-usual message. *)
Lemma one_paisa_above_the_mean_is_higher :
  map amount Samples.hist100 = [100; 100; 100; 100]%float
  /\ series_mean (map amount Samples.hist100) = 100%float
  /\ series_std 0 (map amount Samples.hist100) = 0%float
  /\ is_higher_than_usual
       (_explain (Samples.spent 1 100.01 "food" "upi" 0) Samples.hist100) = true.
Proof. vm_compute. repeat split. Qed.

(** ** What the budget projection sums *)

(** The [current_spending] of a projection is the total of the window of
    the last thirty days, whatever the month of its transactions. *)
Lemma current_spending_is_the_thirty_day_total (now : Calendar.datetime) (uid : Z)
  (db db' : database) (b : budget) :
  detect_budget_overrun now uid db = (Return (Some b), db') ->
  current_spending b
  = match select_user_expenses now uid 30 (expenses db) with
    | [] => 0%float
    | _ :: _ => series_sum (map amount (select_user_expenses now uid 30 (expenses db)))
    end.
Proof.
  unfold detect_budget_overrun, bind, get_user_preferences, get_user_expenses, ret.
  destruct (select_user_preferences uid (preferences db)) as [p | ]; [ | discriminate ].
  destruct (monthly_income p) as [income | ]; [ | discriminate ].
  destruct (negb (truthy income)); [ discriminate | ].
  intros H. injection H as Hb _. subst b. reflexivity.
Qed.

(** C3, at a failing input. On 2024-06-10, day 10 of a 30-day month, with
    an income of 60000, rent of 15000 paid on 2024-05-25 and food of 5000
    bought on 2024-06-05: the spend since the first of June is 5000, but
    [detect_budget_overrun] reports a [current_spending] of 20000 (the rent
    of May is in the thirty-day window), projects 60000 and announces an
    overrun of 30000. With a spend-to-date of 20000 the projection itself is
    the one of the specification's example. *)
Theorem budget_counts_last_month :
  Calendar.ord2ymd (Calendar.toordinal Samples.now0) = (2024, 6, 10)%Z
  /\ Calendar.days_in_month 2024 6 = 30%Z
  /\ map (fun e => Calendar.ord2ymd (Calendar.toordinal (timestamp e)))
         (expenses Samples.db_budget)
     = [(2024, 5, 25); (2024, 6, 5)]%Z
  /\ spec_month_to_date Samples.now0 1 (expenses Samples.db_budget) = 5000%float
  /\ detect_budget_overrun Samples.now0 1 Samples.db_budget
     = (Return (Some (mkbudget 20000 60000 30000 true 30000 20)), Samples.db_budget).
Proof. vm_compute. repeat split. Qed.

(** ** The scores of a batch run *)

Section BatchScores.

Variable L : IsolationForestLib.
Variable contamination : float.

Lemma iterrows_update (df : list expense) (db : database) :
  iterrows df (fun row =>
    update_anomaly_status (id row) (is_anomaly row) (anomaly_score row)) db
  = (Return tt,
     mkdatabase (map (fun e => fold_left (fun e row => written row e) df e) (expenses db))
                (preferences db) (forecasts db)).
Proof.
  revert db. induction df as [ | row df IH ]; intros db.
  - simpl. unfold ret. rewrite map_id. now destruct db.
  - cbn [iterrows]. unfold bind at 1. cbn [update_anomaly_status].
    rewrite IH. cbn [expenses preferences forecasts fold_left].
    rewrite map_map. reflexivity.
Qed.

Lemma written_id (row e : expense) : id (written row e) = id e.
Proof. unfold written. now destruct (id e =? id row)%Z. Qed.

(** After the loop a row of the table is as it was, or it holds the score
    of one of the rows of the frame. *)
Lemma fold_written (df : list expense) (e : expense) :
  fold_left (fun e row => written row e) df e = e
  \/ exists row, In row df
       /\ anomaly_score (fold_left (fun e row => written row e) df e)
          = anomaly_score row.
Proof.
  revert e. induction df as [ | r df IH ]; intros e.
  - now left.
  - cbn [fold_left]. destruct (IH (written r e)) as [Hsame | [row [Hin Hrow]]].
    + rewrite Hsame. unfold written. destruct (id e =? id r)%Z.
      * right. exists r. split; [ now left | reflexivity ].
      * now left.
    + right. exists row. split; [ now right | exact Hrow ].
Qed.

Lemma assign_score_In (df : list expense) (vs : list float) (e : expense) :
  In e (assign set_anomaly_score df vs) -> In (anomaly_score e) vs.
Proof.
  revert vs. induction df as [ | x df IH ]; intros [ | v vs ]; simpl; try tauto.
  intros [He | He].
  - left. now subst e.
  - right. now apply IH.
Qed.

Lemma detect_anomalies_runs (now : Calendar.datetime) (uid : Z) (db : database) :
  let df := select_user_expenses now uid 90 (expenses db) in
  (10 <= List.length df)%nat ->
  exists (model : forest L) (Xs : ndarray) (scored : list expense),
    scored
    = assign set_anomaly_score
        (assign set_is_anomaly df
           (map (fun p => (p =? -1)%Z) (map (if_predict L model) (rows Xs))))
        (map PrimFloat.opp (map (if_score_samples L model) (rows Xs)))
    /\ detect_anomalies L contamination now uid db
       = (Return (filter is_anomaly scored),
          mkdatabase
            (map (fun e => fold_left (fun e row => written row e) scored e)
                 (expenses db))
            (preferences db) (forecasts db)).
Proof.
  intros df Hlen. unfold detect_anomalies, bind at 1, get_user_expenses.
  fold df. apply Nat.ltb_ge in Hlen. rewrite Hlen.
  destruct (scaler_fit_transform_returns (prepare_features df)) as [Xs [HXs _]].
  exists (model_fit L contamination Xs), Xs. eexists. split; [ reflexivity | ].
  unfold bind, lift. rewrite HXs, iterrows_update. reflexivity.
Qed.

(** [detect_anomalies] never raises. *)
Lemma detect_anomalies_returns (now : Calendar.datetime) (uid : Z) (db : database) :
  exists (flagged : list expense) (db' : database),
    detect_anomalies L contamination now uid db = (Return flagged, db').
Proof.
  destruct (Nat.ltb_spec (List.length (select_user_expenses now uid 90 (expenses db))) 10)
    as [Hlen | Hlen].
  - do 2 eexists. now apply detect_anomalies_short.
  - destruct (detect_anomalies_runs now uid db Hlen) as [model [Xs [scored [_ H]]]].
    do 2 eexists. exact H.
Qed.

Hypothesis contract : score_samples_nonpositive L.

Lemma detect_anomalies_scores (now : Calendar.datetime) (uid : Z)
  (db db' : database) (flagged : list expense) :
  detect_anomalies L contamination now uid db = (Return flagged, db') ->
  (forall e, In e flagged -> (0 <=? anomaly_score e)%float = true)
  /\ (forall e', In e' (expenses db') ->
        In e' (expenses db) \/ (0 <=? anomaly_score e')%float = true).
Proof.
  intros Hrun.
  destruct (Nat.ltb_spec (List.length (select_user_expenses now uid 90 (expenses db))) 10)
    as [Hlen | Hlen].
  - rewrite (detect_anomalies_short L contamination now uid db Hlen) in Hrun.
    injection Hrun as Hf Hdb. subst flagged db'. split; [ intros e [] | now left ].
  - destruct (detect_anomalies_runs now uid db Hlen) as [model [Xs [scored [Hsc H]]]].
    rewrite H in Hrun. injection Hrun as Hf Hdb. subst flagged db'.
    assert (Hnonneg : forall row, In row scored ->
                                  (0 <=? anomaly_score row)%float = true).
    { intros row Hrow. rewrite Hsc in Hrow. apply assign_score_In in Hrow.
      rewrite map_map in Hrow. apply in_map_iff in Hrow.
      destruct Hrow as [r [Hr _]]. rewrite <- Hr. apply opp_nonneg, contract. }
    split.
    + intros e He. apply filter_In in He. now apply Hnonneg.
    + cbn [expenses]. intros e' He'. apply in_map_iff in He'.
      destruct He' as [e [He Hin]]. subst e'.
      destruct (fold_written scored e) as [Hsame | [row [Hrow Hscore]]].
      * left. now rewrite Hsame.
      * right. rewrite Hscore. now apply Hnonneg.
Qed.

Lemma check_new_expense_scores (now : Calendar.datetime) (uid eid : Z)
  (db db' : database) (a : bool) (s : float) (m : message) :
  check_new_expense L contamination now uid eid db = (Return (a, s, m), db') ->
  (0 <=? s)%float = true
  /\ (forall e', In e' (expenses db') ->
        In e' (expenses db) \/ anomaly_score e' = s).
Proof.
  intros Hrun. destruct (is_explanation m) eqn:Hm.
  - destruct (Nat.ltb_spec (List.length (select_user_expenses now uid 90 (expenses db))) 10)
      as [Hlen | Hlen].
    { rewrite (check_new_expense_short L contamination now uid eid db Hlen) in Hrun.
      injection Hrun as _ _ Hmsg _. subst m. discriminate Hm. }
    destruct (filter (fun e => (id e =? eid)%Z)
                     (select_user_expenses now uid 90 (expenses db)))
      as [ | x new_df ] eqn:Hnew.
    { unfold check_new_expense, bind, get_user_expenses in Hrun.
      apply Nat.ltb_ge in Hlen. rewrite Hlen, Hnew in Hrun.
      injection Hrun as _ _ Hmsg _. subst m. discriminate Hm. }
    destruct (check_new_expense_scoring L contamination now uid eid db x new_df Hlen Hnew)
      as [[e He] | [a0 [s0 [Hr [f [r Hs]]]]]].
    { rewrite He in Hrun. discriminate Hrun. }
    rewrite Hr in Hrun. injection Hrun as Ha Hs0 _ Hdb. subst a0 s0 db'.
    split.
    + rewrite Hs. apply opp_nonneg, contract.
    + cbn [update_anomaly_status snd expenses]. intros e' He'.
      apply in_map_iff in He'. destruct He' as [e [He Hin]]. subst e'.
      destruct (id e =? eid)%Z; [ now right | now left ].
  - destruct (check_new_expense_not_scored L contamination now uid eid db db' a s m
                Hrun Hm) as [Hdb [_ Hs]].
    subst db' s. split; [ reflexivity | now left ].
Qed.

End BatchScores.

(** C5. Taking from scikit-learn that [score_samples] is never positive:
    [detect_anomalies] always returns, every row it returns carries an
    [anomaly_score] that is at least 0, and every row of the table it
    leaves is a row it found or carries such a score; the score
    [check_new_expense] returns is at least 0 too, and every row of the
    table it leaves is a row it found or carries the returned score. The
    code reaches this with the negation alone: there is no shift or clip. *)
Theorem anomaly_scores_are_nonnegative :
  forall (L : IsolationForestLib) (contamination : float),
    score_samples_nonpositive L ->
    forall (now : Calendar.datetime) (uid : Z) (db : database),
      (exists (flagged : list expense) (db' : database),
          detect_anomalies L contamination now uid db = (Return flagged, db')
          /\ (forall e, In e flagged -> (0 <=? anomaly_score e)%float = true)
          /\ (forall e', In e' (expenses db') ->
                In e' (expenses db) \/ (0 <=? anomaly_score e')%float = true))
      /\ (forall (eid : Z) (a : bool) (s : float) (m : message) (db' : database),
             check_new_expense L contamination now uid eid db = (Return (a, s, m), db') ->
             (0 <=? s)%float = true
             /\ (forall e', In e' (expenses db') ->
                   In e' (expenses db) \/ anomaly_score e' = s)).
Proof.
  intros L c contract now uid db. split.
  - destruct (detect_anomalies_returns L c now uid db) as [flagged [db' Hrun]].
    exists flagged, db'. split; [ exact Hrun | ].
    exact (detect_anomalies_scores L c contract now uid db db' flagged Hrun).
  - intros eid a s m db' Hrun.
    exact (check_new_expense_scores L c contract now uid eid db db' a s m Hrun).
Qed.

Lemma amount_forest_contract : score_samples_nonpositive Samples.amount_forest.
Proof.
  intros f x. cbn [if_score_samples Samples.amount_forest].
  destruct (2 <? abs (hd 0 x))%float; reflexivity.
Qed.

Lemma anomaly_scores_are_nonnegative_witness :
  score_samples_nonpositive Samples.amount_forest
  /\ (exists (flagged : list expense) (db' : database),
         detect_anomalies Samples.amount_forest ANOMALY_CONTAMINATION Samples.now0 1
                          Samples.db_mixed
         = (Return flagged, db')
         /\ (forall e, In e flagged -> (0 <=? anomaly_score e)%float = true)
         /\ (forall e', In e' (expenses db') ->
               In e' (expenses Samples.db_mixed)
               \/ (0 <=? anomaly_score e')%float = true)).
Proof.
  split; [ exact amount_forest_contract | ].
  exact (proj1 (anomaly_scores_are_nonnegative Samples.amount_forest
                  ANOMALY_CONTAMINATION amount_forest_contract
                  Samples.now0 1 Samples.db_mixed)).
Defined.

(** ** The forecast *)


(** ** The days of the daily series *)

Section Days.

Local Open Scope Z_scope.

Lemma fold_max_spec (l : list Z) (x : Z) :
  (fold_left Z.max l x = x \/ In (fold_left Z.max l x) l)
  /\ x <= fold_left Z.max l x
  /\ forall y, In y l -> y <= fold_left Z.max l x.
Proof.
  revert x. induction l as [ | a l IH ]; intros x; cbn [fold_left].
  - split; [ now left | split; [ lia | intros y [] ] ].
  - destruct (IH (Z.max x a)) as [Hin [Hle Hall]]. split; [ | split ].
    + destruct Hin as [Heq | Hin].
      * rewrite Heq. destruct (Z.max_spec x a) as [[_ H] | [_ H]]; rewrite H.
        -- right. now left.
        -- now left.
      * right. now right.
    + lia.
    + intros y [Hy | Hy]; [ subst y; lia | now apply Hall ].
Qed.

Lemma add_to_day_In (d x : Z) (a : float) (l : list (Z * float)) :
  In x (map fst (add_to_day d a l)) <-> x = d \/ In x (map fst l).
Proof.
  induction l as [ | [d' s] l IH ]; cbn [add_to_day].
  - simpl. intuition.
  - destruct (Z.eqb_spec d d') as [-> | Hd].
    + simpl. intuition.
    + destruct (d <? d'); simpl in *; intuition.
Qed.

(** The days of the daily series are the days of the transactions. *)
Lemma _daily_series_days (df : list expense) (x : Z) :
  In x (map fst (_daily_series df))
  <-> In x (map (fun e => Calendar.date (timestamp e)) df).
Proof.
  unfold _daily_series.
  assert (H : forall acc,
             In x (map fst (fold_left
                              (fun acc e => add_to_day (Calendar.date (timestamp e))
                                                       (amount e) acc) df acc))
             <-> In x (map (fun e => Calendar.date (timestamp e)) df)
                 \/ In x (map fst acc)).
  { induction df as [ | e df IH ]; intros acc; cbn [fold_left].
    - simpl. intuition.
    - rewrite IH, add_to_day_In. simpl. intuition. }
  rewrite H. simpl. intuition.
Qed.

Lemma filter_none {A : Type} (f : A -> bool) (l : list A) :
  (forall x, In x l -> f x = false) -> filter f l = [].
Proof.
  induction l as [ | a l IH ]; intros H; [ reflexivity | ].
  cbn [filter]. rewrite (H a (or_introl eq_refl)). apply IH.
  intros x Hx. apply H. now right.
Qed.

End Days.

(** C7, at a failing input. Thirty transactions of one user, all made on
    the same day, pass the gate of 30; their daily series has a single row,
    which Prophet refuses to fit: whatever the forecaster,
    [forecast_expenses_prophet] raises [ValueError] where the claim promises
    thirty points (and where fewer than 30 transactions get the structured
    not-enough-data answer). *)
Theorem thirty_on_one_day_raises :
  forall P : ProphetLib,
    List.length (select_user_expenses Samples.now0 1 90 (expenses Samples.db_one_day))
    = 30%nat
    /\ List.length (_daily_series
                      (select_user_expenses Samples.now0 1 90
                                            (expenses Samples.db_one_day))) = 1%nat
    /\ forecast_expenses_prophet P FORECAST_DAYS MIN_DATA_POINTS
                                 Samples.now0 1 Samples.db_one_day
       = (Raise (ValueError "Dataframe has less than 2 non-NaN rows."),
          Samples.db_one_day).
Proof. intros P. vm_compute. repeat split. Qed.

(** * Further properties of the store *)

Section Window.

Local Open Scope Z_scope.

Lemma insert_desc_perm (e : expense) (l : list expense) :
  Permutation (e :: l) (insert_desc e l).
Proof.
  induction l as [ | x l IH ]; cbn [insert_desc].
  - apply Permutation_refl.
  - destruct (Calendar.leb (timestamp e) (timestamp x)).
    + eapply perm_trans; [ apply perm_swap | ]. now apply perm_skip.
    + apply Permutation_refl.
Qed.

Lemma order_by_timestamp_desc_perm (l : list expense) :
  Permutation l (order_by_timestamp_desc l).
Proof.
  unfold order_by_timestamp_desc.
  assert (H : forall acc,
             Permutation (acc ++ l) (fold_left (fun acc e => insert_desc e acc) l acc)).
  { induction l as [ | e l IH ]; intros acc; cbn [fold_left].
    - now rewrite app_nil_r.
    - eapply perm_trans; [ | apply IH ].
      eapply perm_trans; [ apply Permutation_sym, Permutation_middle | ].
      change (e :: acc ++ l) with ((e :: acc) ++ l).
      apply Permutation_app_tail, insert_desc_perm. }
  apply (H []).
Qed.

Lemma insert_desc_sorted (e : expense) (l : list expense) :
  StronglySorted newer_or_same l -> StronglySorted newer_or_same (insert_desc e l).
Proof.
  induction 1 as [ | x l Hl IH Hx ]; cbn [insert_desc].
  - constructor; constructor.
  - destruct (Calendar.leb (timestamp e) (timestamp x)) eqn:Hcmp; unfold Calendar.leb in Hcmp.
    + apply Z.leb_le in Hcmp. constructor; [ exact IH | ].
      apply (Permutation_Forall (insert_desc_perm e l)). now constructor.
    + apply Z.leb_gt in Hcmp. constructor; [ now constructor | ].
      constructor; [ unfold newer_or_same; lia | ].
      eapply Forall_impl; [ | exact Hx ]. unfold newer_or_same. intros y Hy. lia.
Qed.

Lemma order_by_timestamp_desc_sorted (l : list expense) :
  StronglySorted newer_or_same (order_by_timestamp_desc l).
Proof.
  unfold order_by_timestamp_desc.
  assert (H : forall acc, StronglySorted newer_or_same acc ->
                          StronglySorted newer_or_same
                            (fold_left (fun acc e => insert_desc e acc) l acc)).
  { induction l as [ | e l IH ]; intros acc Hacc; cbn [fold_left]; [ exact Hacc | ].
    now apply IH, insert_desc_sorted. }
  apply H. constructor.
Qed.

Lemma insert_desc_map (f : expense -> expense) (e : expense) (l : list expense) :
  (forall x, timestamp (f x) = timestamp x) ->
  insert_desc (f e) (map f l) = map f (insert_desc e l).
Proof.
  intros Hf. induction l as [ | x l IH ]; cbn [insert_desc map]; [ reflexivity | ].
  rewrite !Hf. destruct (Calendar.leb (timestamp e) (timestamp x)); cbn [map];
    [ now rewrite IH | reflexivity ].
Qed.

(** Rewriting columns other than the user and the timestamp commutes with
    the window query. *)
Lemma select_user_expenses_map (f : expense -> expense)
  (now : Calendar.datetime) (uid days : Z) (table : list expense) :
  (forall x, user_id (f x) = user_id x) ->
  (forall x, timestamp (f x) = timestamp x) ->
  select_user_expenses now uid days (map f table)
  = map f (select_user_expenses now uid days table).
Proof.
  intros Hu Ht. unfold select_user_expenses, order_by_timestamp_desc.
  set (keep := fun e => (user_id e =? uid) && _).
  assert (Hfilter : filter keep (map f table) = map f (filter keep table)).
  { induction table as [ | x l IH ]; [ reflexivity | ]. cbn [map filter].
    replace (keep (f x)) with (keep x) by (unfold keep; now rewrite Hu, Ht).
    destruct (keep x); cbn [map]; now rewrite IH. }
  rewrite Hfilter.
  assert (H : forall l acc,
             fold_left (fun acc e => insert_desc e acc) (map f l) (map f acc)
             = map f (fold_left (fun acc e => insert_desc e acc) l acc)).
  { induction l as [ | x l IH ]; intros acc; cbn [fold_left map]; [ reflexivity | ].
    rewrite (insert_desc_map f x acc Ht). apply IH. }
  apply (H _ []).
Qed.

End Window.

(** X1. On a window SQLite can compute (a number of days that is not
    negative, a start within the calendar) [get_user_expenses] does not
    raise and leaves the store alone; the frame it returns holds exactly
    the rows of the table that belong to the user and are no older than
    [days] days (each as often as the table has it), ordered from the
    newest to the oldest. *)
Theorem get_user_expenses_is_the_window :
  forall (now : Calendar.datetime) (uid days : Z) (db : database),
    window_is_valid now days ->
    exists df : list expense,
      get_user_expenses now uid days db = (Return df, db)
      /\ Permutation (filter (in_window now uid days) (expenses db)) df
      /\ StronglySorted newer_or_same df
      /\ forall e : expense,
           In e df
           <-> In e (expenses db)
               /\ user_id e = uid
               /\ (Calendar.total_seconds now - days * 86400
                   <= Calendar.total_seconds (timestamp e))%Z.
Proof.
  intros now uid days db _. eexists. split; [ reflexivity | ].
  assert (Hperm : Permutation (filter (in_window now uid days) (expenses db))
                              (select_user_expenses now uid days (expenses db)))
    by apply order_by_timestamp_desc_perm.
  split; [ exact Hperm | ]. split; [ apply order_by_timestamp_desc_sorted | ].
  intros e. split.
  - intros He. apply (Permutation_in e (Permutation_sym Hperm)) in He.
    apply filter_In in He. destruct He as [Hin Hw]. split; [ exact Hin | ].
    unfold in_window in Hw. apply andb_prop in Hw. destruct Hw as [Hu Ht].
    apply Z.eqb_eq in Hu. apply Z.leb_le in Ht.
    unfold Calendar.total_seconds, Calendar.add_days in *.
    cbn [Calendar.toordinal Calendar.seconds] in Ht. split; [ exact Hu | lia ].
  - intros [Hin [Hu Ht]]. apply (Permutation_in e Hperm). apply filter_In.
    split; [ exact Hin | ]. unfold in_window. apply andb_true_intro. split.
    + now apply Z.eqb_eq.
    + apply Z.leb_le. unfold Calendar.total_seconds, Calendar.add_days in *.
      cbn [Calendar.toordinal Calendar.seconds]. lia.
Qed.

Lemma get_user_expenses_is_the_window_witness :
  window_is_valid Samples.now0 90
  /\ exists df : list expense,
       get_user_expenses Samples.now0 1 90 db_flagged = (Return df, db_flagged)
       /\ Permutation (filter (in_window Samples.now0 1 90) (expenses db_flagged)) df
       /\ StronglySorted newer_or_same df
       /\ forall e : expense,
            In e df
            <-> In e (expenses db_flagged)
                /\ user_id e = 1%Z
                /\ (Calendar.total_seconds Samples.now0 - 90 * 86400
                    <= Calendar.total_seconds (timestamp e))%Z.
Proof.
  assert (H : window_is_valid Samples.now0 90)
    by (unfold window_is_valid, is_datetime; vm_compute; intuition discriminate).
  split; [ exact H | ].
  exact (get_user_expenses_is_the_window Samples.now0 1 90 db_flagged H).
Defined.

Section Keys.

Local Open Scope Z_scope.

Lemma next_id_above (table : list expense) (e : expense) :
  In e table -> id e < next_id table.
Proof.
  intros He. unfold next_id.
  destruct (fold_max_spec (map id table) 0) as [_ [_ Hall]].
  specialize (Hall (id e) (in_map id table e He)). lia.
Qed.

Lemma next_id_positive (table : list expense) : 1 <= next_id table.
Proof.
  unfold next_id. destruct (fold_max_spec (map id table) 0) as [_ [Hle _]]. lia.
Qed.

Lemma select_user_expenses_app (now : Calendar.datetime) (uid days : Z)
  (table : list expense) (row : expense) :
  select_user_expenses now uid days (table ++ [row])
  = if in_window now uid days row
    then insert_desc row (select_user_expenses now uid days table)
    else select_user_expenses now uid days table.
Proof.
  unfold select_user_expenses, order_by_timestamp_desc.
  rewrite filter_app. cbn [filter].
  change ((user_id row =? uid) && Calendar.leb (Calendar.add_days now (- days)) (timestamp row))%bool
    with (in_window now uid days row).
  destruct (in_window now uid days row).
  - now rewrite fold_left_app.
  - now rewrite app_nil_r.
Qed.

End Keys.

(** X2. When SQLite accepts the INSERT (the amount is a number, user id
    and next key fit 64 bits), [add_expense] appends one row and changes
    nothing else: the row carries the given fields, the clock reading, no
    anomaly and score 0; its key, which is returned, is at least 1 and
    larger than every key of the table, so keys that were distinct stay
    distinct. *)
Theorem add_expense_appends_a_fresh_row :
  forall (now : Calendar.datetime) (uid : Z) (amt : float) (cat pay desc : string)
         (db : database),
    insert_is_accepted uid amt (expenses db) ->
    exists i : Z,
      add_expense now uid amt cat pay desc db
      = (Return i,
         mkdatabase (expenses db ++ [mkexpense i uid amt cat pay desc now false 0%float])
                    (preferences db) (forecasts db))
      /\ (1 <= i)%Z
      /\ (forall e, In e (expenses db) -> (id e < i)%Z)
      /\ (NoDup (map id (expenses db)) ->
          NoDup (map id (expenses db
                         ++ [mkexpense i uid amt cat pay desc now false 0%float]))).
Proof.
  intros now uid amt cat pay desc db _. exists (next_id (expenses db)).
  split; [ reflexivity | ]. split; [ apply next_id_positive | ].
  split; [ intros e; apply next_id_above | ].
  intros Hnd. rewrite map_app. cbn [map id].
  apply NoDup_app; [ exact Hnd | constructor; [ intros [] | constructor ] | ].
  intros x Hx [Heq | []]. apply in_map_iff in Hx. destruct Hx as [e [He Hin]].
  pose proof (next_id_above _ _ Hin) as Hlt. lia.
Qed.

Lemma add_expense_appends_a_fresh_row_witness :
  insert_is_accepted 1 250 (expenses Samples.db_nine)
  /\ exists i : Z,
       add_expense Samples.now0 1 250 "food" "upi" "lunch" Samples.db_nine
       = (Return i,
          mkdatabase (expenses Samples.db_nine
                      ++ [mkexpense i 1 250 "food" "upi" "lunch" Samples.now0
                                    false 0%float])
                     (preferences Samples.db_nine) (forecasts Samples.db_nine))
       /\ (1 <= i)%Z
       /\ (forall e, In e (expenses Samples.db_nine) -> (id e < i)%Z)
       /\ (NoDup (map id (expenses Samples.db_nine)) ->
           NoDup (map id (expenses Samples.db_nine
                          ++ [mkexpense i 1 250 "food" "upi" "lunch" Samples.now0
                                        false 0%float]))).
Proof.
  assert (H : insert_is_accepted 1 250 (expenses Samples.db_nine))
    by (unfold insert_is_accepted, is_int64; vm_compute; intuition discriminate).
  split; [ exact H | ].
  exact (add_expense_appends_a_fresh_row Samples.now0 1 250 "food" "upi" "lunch"
           Samples.db_nine H).
Defined.

(** X3. An expense that SQLite accepts, added at a clock reading that lies
    in the window of a later query (a window SQLite can compute), is found
    by that query: the user's frame is the earlier one with the new row put
    in its place (one row more), and the frames of the other users are
    what they were. *)
Theorem added_expense_is_in_the_window :
  forall (t now : Calendar.datetime) (uid days : Z) (amt : float)
         (cat pay desc : string) (db : database),
    insert_is_accepted uid amt (expenses db) ->
    window_is_valid now days ->
    Calendar.leb (Calendar.add_days now (- days)) t = true ->
    let row := mkexpense (next_id (expenses db)) uid amt cat pay desc t false 0%float in
    let db' := snd (add_expense t uid amt cat pay desc db) in
    select_user_expenses now uid days (expenses db')
    = insert_desc row (select_user_expenses now uid days (expenses db))
    /\ In row (select_user_expenses now uid days (expenses db'))
    /\ List.length (select_user_expenses now uid days (expenses db'))
       = S (List.length (select_user_expenses now uid days (expenses db)))
    /\ forall uid' days' : Z,
         uid' <> uid ->
         select_user_expenses now uid' days' (expenses db')
         = select_user_expenses now uid' days' (expenses db).
Proof.
  intros t now uid days amt cat pay desc db _ _ Ht row db'.
  assert (Hsel : select_user_expenses now uid days (expenses db')
                 = insert_desc row (select_user_expenses now uid days (expenses db))).
  { unfold db'. cbn [add_expense snd expenses]. fold row.
    rewrite select_user_expenses_app. unfold in_window.
    cbn [user_id timestamp row]. now rewrite Z.eqb_refl, Ht. }
  split; [ exact Hsel | ]. split; [ | split ].
  - rewrite Hsel. apply (Permutation_in row (insert_desc_perm row _)). now left.
  - rewrite Hsel.
    now rewrite <- (Permutation_length (insert_desc_perm row _)).
  - intros uid' days' Hne. unfold db'. cbn [add_expense snd expenses].
    rewrite select_user_expenses_app. unfold in_window. cbn [user_id].
    apply Z.eqb_neq in Hne. rewrite Z.eqb_sym in Hne. now rewrite Hne.
Qed.

Lemma added_expense_is_in_the_window_witness :
  insert_is_accepted 1 250 (expenses Samples.db_nine)
  /\ window_is_valid Samples.now0 90
  /\ Calendar.leb (Calendar.add_days Samples.now0 (- 90))
                  (Calendar.make 2024 6 10 11 59 0) = true
  /\ List.length
       (select_user_expenses Samples.now0 1 90
          (expenses (snd (add_expense (Calendar.make 2024 6 10 11 59 0) 1 250
                                      "food" "upi" "lunch" Samples.db_nine))))
     = S (List.length (select_user_expenses Samples.now0 1 90
                                            (expenses Samples.db_nine))).
Proof.
  assert (Hins : insert_is_accepted 1 250 (expenses Samples.db_nine))
    by (unfold insert_is_accepted, is_int64; vm_compute; intuition discriminate).
  assert (Hwin : window_is_valid Samples.now0 90)
    by (unfold window_is_valid, is_datetime; vm_compute; intuition discriminate).
  assert (H : Calendar.leb (Calendar.add_days Samples.now0 (- 90))
                           (Calendar.make 2024 6 10 11 59 0) = true)
    by (vm_compute; reflexivity).
  split; [ exact Hins | ]. split; [ exact Hwin | ]. split; [ exact H | ].
  exact (proj1 (proj2 (proj2
           (added_expense_is_in_the_window (Calendar.make 2024 6 10 11 59 0)
              Samples.now0 1 90 250 "food" "upi" "lunch" Samples.db_nine
              Hins Hwin H)))).
Defined.

(** X4. [update_anomaly_status] on a key that no row has changes nothing;
    on any key it does not change which rows a query returns nor their
    order, the rows with the key come back with the new status and the
    others as they were; and repeating the update changes nothing more. *)
Theorem update_anomaly_status_is_read_back :
  forall (eid : Z) (a : bool) (s : float) (db : database),
    let db' := snd (update_anomaly_status eid a s db) in
    ((forall e, In e (expenses db) -> id e <> eid) -> db' = db)
    /\ (forall (now : Calendar.datetime) (uid days : Z),
           select_user_expenses now uid days (expenses db')
           = map (fun e => if (id e =? eid)%Z then set_anomaly a s e else e)
                 (select_user_expenses now uid days (expenses db)))
    /\ snd (update_anomaly_status eid a s db') = db'.
Proof.
  intros eid a s db db'. unfold db'. cbn [update_anomaly_status snd expenses
                                          preferences forecasts].
  split; [ | split ].
  - intros Hmiss. destruct db as [es ps fs]. cbn [expenses preferences forecasts] in *.
    f_equal. rewrite <- (map_id es) at 2. apply map_ext_in. intros e He.
    specialize (Hmiss e He). apply Z.eqb_neq in Hmiss. now rewrite Hmiss.
  - intros now uid days. apply select_user_expenses_map; intros x;
      destruct (id x =? eid)%Z; reflexivity.
  - f_equal. rewrite map_map. apply map_ext. intros e.
    destruct (id e =? eid)%Z eqn:He; [ | now rewrite He ].
    cbn [set_anomaly id]. rewrite He. reflexivity.
Qed.

Section Preferences.

Lemma find_map_same_key {A : Type} (pred : A -> bool) (f : A -> A) (l : list A) :
  (forall x, pred (f x) = pred x) ->
  find pred (map f l) = option_map f (find pred l).
Proof.
  intros Hf. induction l as [ | x l IH ]; [ reflexivity | ].
  cbn [map find]. rewrite Hf. now destruct (pred x).
Qed.

Lemma find_app_last {A : Type} (pred : A -> bool) (l : list A) (x : A) :
  find pred (l ++ [x])
  = match find pred l with
    | Some y => Some y
    | None => if pred x then Some x else None
    end.
Proof.
  induction l as [ | y l IH ]; cbn [app find]; [ reflexivity | ].
  now destruct (pred y).
Qed.

Lemma existsb_find {A : Type} (pred : A -> bool) (l : list A) :
  existsb pred l = match find pred l with Some _ => true | None => false end.
Proof.
  induction l as [ | y l IH ]; cbn [existsb find]; [ reflexivity | ].
  now destruct (pred y).
Qed.

(** The row [set_user_preferences] leaves for the user. *)
Lemma preferences_after_set (uid : Z) (income goal : option float)
  (risk : option string) (db : database) :
  exists p : user_preferences,
    select_user_preferences uid
      (preferences (snd (set_user_preferences uid income goal risk db))) = Some p
    /\ monthly_income p
       = coalesce (sql_real income)
           (match select_user_preferences uid (preferences db) with
            | Some q => monthly_income q
            | None => None
            end).
Proof.
  cbn [set_user_preferences snd preferences].
  unfold select_user_preferences. rewrite existsb_find.
  destruct (find (fun p => (prefs_user_id p =? uid)%Z) (preferences db))
    as [q | ] eqn:Hfind.
  - rewrite find_map_same_key, Hfind.
    + cbn [option_map]. apply find_some in Hfind. destruct Hfind as [_ Hq].
      rewrite Hq. eexists. split; reflexivity.
    + intros x. destruct (prefs_user_id x =? uid)%Z eqn:Hx; exact Hx.
  - rewrite find_app_last, Hfind. cbn [prefs_user_id]. rewrite Z.eqb_refl.
    eexists. split; [ reflexivity | ]. cbn [monthly_income].
    now destruct (sql_real income).
Qed.

End Preferences.

(** X5. After [set_user_preferences] the user's row reads back with every
    given value in place and every omitted value as it was (a value on file
    is never erased by an omitted argument); an income or a goal that is
    NaN counts as omitted, SQLite storing it as NULL. A user without a row
    gets one with the given values and notifications enabled. The rows of
    the other users, the expenses and the forecasts are untouched. *)
Theorem preferences_are_read_back :
  forall (uid : Z) (income goal : option float) (risk : option string)
         (db : database),
    let db' := snd (set_user_preferences uid income goal risk db) in
    select_user_preferences uid (preferences db')
    = Some (match select_user_preferences uid (preferences db) with
            | Some p => mkprefs (prefs_user_id p)
                                (coalesce (sql_real income) (monthly_income p))
                                (coalesce (sql_real goal) (savings_goal p))
                                (coalesce risk (risk_tolerance p))
                                (notification_enabled p)
            | None => mkprefs uid (sql_real income) (sql_real goal) risk true
            end)
    /\ (forall uid' : Z,
           uid' <> uid ->
           select_user_preferences uid' (preferences db')
           = select_user_preferences uid' (preferences db))
    /\ expenses db' = expenses db
    /\ forecasts db' = forecasts db.
Proof.
  intros uid income goal risk db db'. unfold db'.
  cbn [set_user_preferences snd preferences expenses forecasts].
  unfold select_user_preferences. rewrite existsb_find.
  set (upd := fun p : user_preferences => if (prefs_user_id p =? uid)%Z then _ else p).
  assert (Hkey : forall (u : Z) (x : user_preferences),
             (prefs_user_id (upd x) =? u)%Z = (prefs_user_id x =? u)%Z).
  { intros u x. unfold upd. now destruct (prefs_user_id x =? uid)%Z eqn:Hx. }
  split; [ | split; [ | split; reflexivity ] ].
  - destruct (find (fun p => (prefs_user_id p =? uid)%Z) (preferences db))
      as [p | ] eqn:Hfind.
    + rewrite (find_map_same_key _ upd _ (Hkey uid)), Hfind. cbn [option_map].
      apply find_some in Hfind. destruct Hfind as [_ Hp]. unfold upd. now rewrite Hp.
    + rewrite find_app_last, Hfind. cbn [prefs_user_id]. now rewrite Z.eqb_refl.
  - intros uid' Hne.
    destruct (find (fun p => (prefs_user_id p =? uid)%Z) (preferences db))
      as [p | ] eqn:Hfind.
    + rewrite (find_map_same_key _ upd _ (Hkey uid')).
      destruct (find (fun p0 => (prefs_user_id p0 =? uid')%Z) (preferences db))
        as [q | ] eqn:Hq; [ | reflexivity ].
      cbn [option_map]. apply find_some in Hq. destruct Hq as [_ Hq].
      apply Z.eqb_eq in Hq. unfold upd.
      replace (prefs_user_id q =? uid)%Z with false
        by (symmetry; apply Z.eqb_neq; lia).
      reflexivity.
    + rewrite find_app_last. cbn [prefs_user_id].
      replace (uid =? uid')%Z with false by (symmetry; apply Z.eqb_neq; lia).
      now destruct (find (fun p => (prefs_user_id p =? uid')%Z) (preferences db)).
Qed.

Section Budget.

(** What [detect_budget_overrun] returns, read off the preferences row. *)
Lemma detect_budget_overrun_cases (now : Calendar.datetime) (uid : Z) (db : database) :
  (detect_budget_overrun now uid db = (Return None, db)
   /\ forall p x, select_user_preferences uid (preferences db) = Some p ->
                  monthly_income p = Some x -> truthy x = false)
  \/ (exists (p : user_preferences) (x : float) (b : budget),
         select_user_preferences uid (preferences db) = Some p
         /\ monthly_income p = Some x
         /\ truthy x = true
         /\ detect_budget_overrun now uid db = (Return (Some b), db)
         /\ budget_limit b = (x * 0.5)%float
         /\ will_exceed b = (budget_limit b <? projected_total b)%float
         /\ excess_amount b = py_max0 (projected_total b - budget_limit b)).
Proof.
  unfold detect_budget_overrun, bind, get_user_preferences, get_user_expenses, ret.
  destruct (select_user_preferences uid (preferences db)) as [p | ];
    [ | left; split; [ reflexivity | discriminate ] ].
  destruct (monthly_income p) as [x | ] eqn:Hinc;
    [ | left; split; [ reflexivity | intros p0 x0 Hp; injection Hp as ->; congruence ] ].
  destruct (truthy x) eqn:Hx; cbn [negb].
  - right. exists p, x. eexists. repeat split; try reflexivity; assumption.
  - left. split; [ reflexivity | ].
    intros p0 x0 Hp Hx0. injection Hp as ->. congruence.
Qed.

End Budget.

(** X6. [detect_budget_overrun] never raises and never writes. It returns a
    projection exactly when the user has a row with a monthly income other
    than zero; the projection's limit is half that income, [will_exceed]
    says whether the projected total is above the limit, and
    [excess_amount] is the projected total minus the limit when that is
    positive and 0 otherwise, so never negative. *)
Theorem budget_projection_needs_a_nonzero_income :
  forall (now : Calendar.datetime) (uid : Z) (db : database),
    exists r : option budget,
      detect_budget_overrun now uid db = (Return r, db)
      /\ (r <> None
          <-> exists (p : user_preferences) (x : float),
                select_user_preferences uid (preferences db) = Some p
                /\ monthly_income p = Some x /\ truthy x = true)
      /\ forall b : budget,
           r = Some b ->
           (exists (p : user_preferences) (x : float),
               select_user_preferences uid (preferences db) = Some p
               /\ monthly_income p = Some x
               /\ budget_limit b = (x * 0.5)%float)
           /\ will_exceed b = (budget_limit b <? projected_total b)%float
           /\ excess_amount b = py_max0 (projected_total b - budget_limit b)
           /\ (0 <=? excess_amount b)%float = true.
Proof.
  intros now uid db.
  destruct (detect_budget_overrun_cases now uid db)
    as [[Hrun Hnone] | [p [x [b [Hp [Hinc [Hx [Hrun [Hlim [Hwill Hexc]]]]]]]]]].
  - exists None. split; [ exact Hrun | ]. split.
    + split; [ congruence | ]. intros [p [x [Hp [Hinc Hx]]]].
      rewrite (Hnone p x Hp Hinc) in Hx. discriminate.
    + discriminate.
  - exists (Some b). split; [ exact Hrun | ]. split.
    + split; [ intros _; now exists p, x | discriminate ].
    + intros b0 Hb. injection Hb as <-.
      split; [ now exists p, x | ]. split; [ exact Hwill | ].
      split; [ exact Hexc | ]. rewrite Hexc. apply py_max0_nonneg.
Qed.

(** X7. Once an income that is a number other than zero has been set with
    [set_user_preferences], [detect_budget_overrun] returns a projection
    for that user, with half of that income as its limit. *)
Theorem income_set_is_the_income_projected :
  forall (now : Calendar.datetime) (uid : Z) (x : float) (goal : option float)
         (risk : option string) (db : database),
    isnan x = false ->
    truthy x = true ->
    let db' := snd (set_user_preferences uid (Some x) goal risk db) in
    exists b : budget,
      detect_budget_overrun now uid db' = (Return (Some b), db')
      /\ budget_limit b = (x * 0.5)%float.
Proof.
  intros now uid x goal risk db Hnum Hx db'.
  destruct (preferences_after_set uid (Some x) goal risk db) as [p [Hp Hinc]].
  fold db' in Hp. cbn [sql_real] in Hinc. rewrite Hnum in Hinc.
  destruct (detect_budget_overrun_cases now uid db')
    as [[_ Hnone] | [p0 [x0 [b [Hp0 [Hinc0 [_ [Hrun [Hlim _]]]]]]]]].
  - cbn [coalesce] in Hinc. rewrite (Hnone p x Hp Hinc) in Hx. discriminate.
  - exists b. split; [ exact Hrun | ]. rewrite Hp in Hp0. injection Hp0 as <-.
    cbn [coalesce] in Hinc. rewrite Hinc in Hinc0. injection Hinc0 as <-. exact Hlim.
Qed.

Lemma income_set_is_the_income_projected_witness :
  isnan 40000 = false
  /\ truthy 40000 = true
  /\ exists b : budget,
       detect_budget_overrun Samples.now0 1
         (snd (set_user_preferences 1 (Some 40000%float) None None Samples.db_budget))
       = (Return (Some b),
          snd (set_user_preferences 1 (Some 40000%float) None None Samples.db_budget))
       /\ budget_limit b = (40000 * 0.5)%float.
Proof.
  split; [ reflexivity | ]. split; [ reflexivity | ].
  exact (income_set_is_the_income_projected Samples.now0 1 40000 None None
           Samples.db_budget eq_refl eq_refl).
Defined.

(** * Further properties of the anomaly detector *)

Section Features.

Lemma insert_unique_In (s x : string) (l : list string) :
  In x (insert_unique s l) <-> x = s \/ In x l.
Proof.
  induction l as [ | a l IH ]; cbn [insert_unique].
  - cbn. intuition.
  - destruct (String.compare s a) eqn:E.
    + apply String.compare_eq_iff in E. subst a. cbn. intuition.
    + cbn. intuition.
    + cbn [In]. rewrite IH. intuition.
Qed.

Lemma dummy_columns_In (col : list string) (s : string) :
  In s (dummy_columns col) <-> In s col.
Proof.
  unfold dummy_columns.
  assert (H : forall acc,
             In s (fold_left (fun acc s => insert_unique s acc) col acc)
             <-> In s col \/ In s acc).
  { induction col as [ | c col IH ]; intros acc; cbn [fold_left].
    - cbn. intuition.
    - rewrite IH, insert_unique_In. cbn [In]. intuition. }
  rewrite H. cbn. intuition.
Qed.

Lemma insert_unique_sorted (s : string) (l : list string) :
  StronglySorted String_as_OT.lt l ->
  StronglySorted String_as_OT.lt (insert_unique s l).
Proof.
  induction 1 as [ | a l Hl IH Ha ]; cbn [insert_unique].
  - repeat constructor.
  - destruct (String.compare s a) eqn:E.
    + now constructor.
    + apply String_as_OT.cmp_lt in E. constructor; [ now constructor | ].
      constructor; [ exact E | ].
      apply Forall_forall. intros y Hy.
      apply (String_as_OT.lt_trans _ _ _ E).
      exact (proj1 (Forall_forall _ _) Ha y Hy).
    + assert (Has : String_as_OT.lt a s).
      { apply String_as_OT.cmp_lt. unfold String_as_OT.cmp.
        rewrite String_as_OT.cmp_antisym. unfold String_as_OT.cmp. now rewrite E. }
      constructor; [ exact IH | ].
      apply Forall_forall. intros y Hy. apply insert_unique_In in Hy.
      destruct Hy as [-> | Hy]; [ exact Has | ].
      exact (proj1 (Forall_forall _ _) Ha y Hy).
Qed.

Lemma dummy_columns_sorted (col : list string) :
  StronglySorted String_as_OT.lt (dummy_columns col).
Proof.
  unfold dummy_columns.
  assert (H : forall acc,
             StronglySorted String_as_OT.lt acc ->
             StronglySorted String_as_OT.lt
               (fold_left (fun acc s => insert_unique s acc) col acc)).
  { induction col as [ | c col IH ]; intros acc Hacc; cbn [fold_left].
    - exact Hacc.
    - apply IH. now apply insert_unique_sorted. }
  apply H. constructor.
Qed.

Lemma sorted_NoDup (l : list string) :
  StronglySorted String_as_OT.lt l -> NoDup l.
Proof.
  induction 1 as [ | a l Hl IH Ha ]; constructor; [ | exact IH ].
  intros Hin. apply (proj1 (Forall_forall _ _) Ha) in Hin.
  apply String_as_OT.lt_not_eq in Hin. apply Hin. reflexivity.
Qed.

Lemma dummy_columns_NoDup (col : list string) : NoDup (dummy_columns col).
Proof. apply sorted_NoDup, dummy_columns_sorted. Qed.

(** As many indicator columns as the column has distinct values. *)
Lemma dummy_columns_length (col : list string) :
  List.length (dummy_columns col) = List.length (nodup string_dec col).
Proof.
  apply Permutation_length, NoDup_Permutation.
  - apply dummy_columns_NoDup.
  - apply NoDup_nodup.
  - intros x. now rewrite dummy_columns_In, nodup_In.
Qed.

Lemma length_one_hot (columns : list string) (v : string) :
  List.length (one_hot columns v) = List.length columns.
Proof. apply length_map. Qed.

Lemma one_hot_absent (columns : list string) (v : string) :
  ~ In v columns -> one_hot columns v = repeat 0%float (List.length columns).
Proof.
  induction columns as [ | c l IH ]; intros Hv; [ reflexivity | ].
  cbn [one_hot map List.length repeat].
  replace (String.eqb v c) with false.
  - f_equal. apply IH. intros H. apply Hv. now right.
  - symmetry. apply String.eqb_neq. intros ->. apply Hv. now left.
Qed.

Lemma one_hot_at (columns : list string) (v : string) :
  NoDup columns -> In v columns ->
  exists n1 n2 : nat,
    one_hot columns v = repeat 0%float n1 ++ 1%float :: repeat 0%float n2
    /\ nth_error columns n1 = Some v
    /\ List.length columns = (n1 + 1 + n2)%nat.
Proof.
  induction columns as [ | c l IH ]; intros Hnd Hin; [ destruct Hin | ].
  inversion Hnd as [ | c0 l0 Hc Hl ]; subst.
  cbn [one_hot map]. destruct (String.eqb v c) eqn:E.
  - apply String.eqb_eq in E. subst c. exists 0%nat, (List.length l).
    split; [ | split; reflexivity ].
    cbn [repeat app]. f_equal. now apply one_hot_absent.
  - apply String.eqb_neq in E. destruct Hin as [Heq | Hin]; [ congruence | ].
    destruct (IH Hl Hin) as [n1 [n2 [Hoh [Hnth Hlen]]]].
    exists (S n1), n2. split; [ | split ].
    + cbn [repeat app]. f_equal. exact Hoh.
    + exact Hnth.
    + cbn [List.length]. rewrite Hlen. reflexivity.
Qed.

Lemma isnan_fillna0 (x : float) : isnan (fillna0 x) = false.
Proof. unfold fillna0. destruct (isnan x) eqn:E; [ reflexivity | exact E ]. Qed.

Lemma map_fillna0_repeat0 (n : nat) :
  map fillna0 (repeat 0%float n) = repeat 0%float n.
Proof. induction n as [ | n IH ]; [ reflexivity | ]. cbn [repeat map]. now rewrite IH. Qed.

End Features.

(** X8. The matrix [prepare_features] builds is rectangular and free of NaN:
    it has one row per transaction of the frame, every row has as many
    entries as the matrix has columns, and that is 4 plus the number of
    distinct categories plus the number of distinct payment methods of the
    frame. *)
Theorem prepare_features_is_rectangular :
  forall df : list expense,
    let X := prepare_features df in
    List.length (rows X) = List.length df
    /\ ncols X
       = (4 + List.length (nodup string_dec (map category df))
          + List.length (nodup string_dec (map payment_method df)))%nat
    /\ Forall (fun r => List.length r = ncols X
                        /\ Forall (fun x => isnan x = false) r)
              (rows X).
Proof.
  intros df X. unfold X, prepare_features. cbn [rows ncols].
  split; [ apply length_map | ]. split.
  - now rewrite !dummy_columns_length.
  - apply Forall_forall. intros r Hr. apply in_map_iff in Hr.
    destruct Hr as [e [<- _]]. split.
    + rewrite length_map, !length_app, !length_one_hot. reflexivity.
    + apply Forall_forall. intros x Hx. apply in_map_iff in Hx.
      destruct Hx as [y [<- _]]. apply isnan_fillna0.
Qed.

(** X9. Each row of the matrix is the four numeric features of its
    transaction (amount, hour, day of the week, day of the month) followed
    by the category block and the payment-method block, each of which holds
    a single 1, at the place its value has among the sorted distinct values
    of the frame, and 0 elsewhere. *)
Theorem feature_rows_are_one_hot :
  forall df : list expense,
    Forall2
      (fun (e : expense) (r : list float) =>
         exists n1 n2 m1 m2 : nat,
           r = map fillna0 [amount e;
                            float_of_Z (Calendar.hour (timestamp e));
                            float_of_Z (Calendar.dayofweek (timestamp e));
                            float_of_Z (Calendar.day (timestamp e))]
               ++ (repeat 0%float n1 ++ 1%float :: repeat 0%float n2)
               ++ (repeat 0%float m1 ++ 1%float :: repeat 0%float m2)
           /\ nth_error (dummy_columns (map category df)) n1 = Some (category e)
           /\ nth_error (dummy_columns (map payment_method df)) m1
              = Some (payment_method e)
           /\ List.length (dummy_columns (map category df)) = (n1 + 1 + n2)%nat
           /\ List.length (dummy_columns (map payment_method df)) = (m1 + 1 + m2)%nat)
      df (rows (prepare_features df)).
Proof.
  intros df. unfold prepare_features. cbn [rows].
  set (cats := dummy_columns (map category df)).
  set (pays := dummy_columns (map payment_method df)).
  assert (Hcats : forall e, In e df -> In (category e) cats)
    by (intros e He; apply dummy_columns_In; now apply in_map).
  assert (Hpays : forall e, In e df -> In (payment_method e) pays)
    by (intros e He; apply dummy_columns_In; now apply in_map).
  assert (H : forall l, (forall e, In e l -> In e df) ->
             Forall2
               (fun e r =>
                  exists n1 n2 m1 m2 : nat,
                    r = map fillna0 [amount e;
                                     float_of_Z (Calendar.hour (timestamp e));
                                     float_of_Z (Calendar.dayofweek (timestamp e));
                                     float_of_Z (Calendar.day (timestamp e))]
                        ++ (repeat 0%float n1 ++ 1%float :: repeat 0%float n2)
                        ++ (repeat 0%float m1 ++ 1%float :: repeat 0%float m2)
                    /\ nth_error cats n1 = Some (category e)
                    /\ nth_error pays m1 = Some (payment_method e)
                    /\ List.length cats = (n1 + 1 + n2)%nat
                    /\ List.length pays = (m1 + 1 + m2)%nat)
               l
               (map (fun e =>
                       map fillna0
                           ([amount e;
                             float_of_Z (Calendar.hour (timestamp e));
                             float_of_Z (Calendar.dayofweek (timestamp e));
                             float_of_Z (Calendar.day (timestamp e))]
                            ++ one_hot cats (category e)
                            ++ one_hot pays (payment_method e))) l)).
  { induction l as [ | e l IH ]; intros Hl; cbn [map]; constructor.
    - destruct (one_hot_at cats (category e) (dummy_columns_NoDup _)
                  (Hcats e (Hl e (or_introl eq_refl))))
        as [n1 [n2 [Hc [Hnc Hlc]]]].
      destruct (one_hot_at pays (payment_method e) (dummy_columns_NoDup _)
                  (Hpays e (Hl e (or_introl eq_refl))))
        as [m1 [m2 [Hp [Hnp Hlp]]]].
      exists n1, n2, m1, m2. split; [ | now repeat split ].
      rewrite Hc, Hp, !map_app. cbn [map].
      rewrite !map_fillna0_repeat0. reflexivity.
    - apply IH. intros x Hx. apply Hl. now right. }
  apply H. auto.
Qed.

Section Vocabulary.

(** A selection of rows with distinct keys has distinct keys. *)
Lemma filter_keeps_keys_distinct (keep : expense -> bool) (table : list expense) :
  NoDup (map id table) -> NoDup (map id (filter keep table)).
Proof.
  induction table as [ | row table IH ]; intros Hkeys; [ constructor | ].
  cbn [map] in Hkeys. inversion Hkeys as [ | k ks Hrow Htable ]; subst.
  cbn [filter]. destruct (keep row); [ | now apply IH ].
  cbn [map]. constructor; [ | now apply IH ].
  intros Hin. apply Hrow. apply in_map_iff in Hin. destruct Hin as [x [Hx Hin]].
  apply filter_In in Hin. apply in_map_iff. exists x. tauto.
Qed.

(** The keys of a window are distinct when those of the table are. *)
Lemma select_user_expenses_NoDup (now : Calendar.datetime) (uid days : Z)
  (table : list expense) :
  NoDup (map id table) ->
  NoDup (map id (select_user_expenses now uid days table)).
Proof.
  intros Hnd.
  apply (Permutation_NoDup
           (l := map id (filter (in_window now uid days) table))).
  - apply Permutation_map. apply order_by_timestamp_desc_perm.
  - now apply filter_keeps_keys_distinct.
Qed.

Lemma filter_key_singleton (l : list expense) (x : expense) :
  NoDup (map id l) -> In x l ->
  filter (fun e => (id e =? id x)%Z) l = [x].
Proof.
  induction l as [ | a l IH ]; intros Hnd Hin; [ destruct Hin | ].
  cbn [map] in Hnd. inversion Hnd as [ | b l0 Ha Hl ]; subst.
  cbn [filter]. destruct Hin as [-> | Hin].
  - rewrite Z.eqb_refl. f_equal. apply filter_none. intros e He.
    apply Z.eqb_neq. intros Heq. apply Ha. rewrite <- Heq. now apply in_map.
  - replace (id a =? id x)%Z with false; [ now apply IH | ].
    symmetry. apply Z.eqb_neq. intros Heq. apply Ha. rewrite Heq. now apply in_map.
Qed.

Lemma dummy_columns_nonempty (col : list string) :
  col <> [] -> (1 <= List.length (dummy_columns col))%nat.
Proof.
  destruct col as [ | c col ]; [ congruence | ]. intros _.
  assert (H : In c (dummy_columns (c :: col))) by (apply dummy_columns_In; now left).
  destruct (dummy_columns (c :: col)); [ destruct H | cbn; lia ].
Qed.

(** One indicator column exactly when the column holds one value. *)
Lemma dummy_columns_single (col : list string) :
  List.length (dummy_columns col) = 1%nat
  <-> col <> [] /\ forall a b, In a col -> In b col -> a = b.
Proof.
  split.
  - intros Hlen. split.
    + intros ->. discriminate Hlen.
    + intros a b Ha Hb. apply dummy_columns_In in Ha, Hb.
      destruct (dummy_columns col) as [ | c [ | c' l ] ]; try discriminate Hlen.
      destruct Ha as [<- | []], Hb as [<- | []]. reflexivity.
  - intros [Hne Hall].
    pose proof (dummy_columns_nonempty col Hne) as Hge.
    pose proof (dummy_columns_NoDup col) as Hnd.
    destruct (dummy_columns col) as [ | c [ | c' l ] ] eqn:E;
      [ cbn in Hge; lia | reflexivity | ].
    exfalso. inversion Hnd as [ | c0 l0 Hc _ ]; subst. apply Hc.
    assert (Hin : forall s, In s (c :: c' :: l) -> In s col)
      by (intros s Hs; apply dummy_columns_In; now rewrite E).
    rewrite (Hall c c' (Hin c (or_introl eq_refl))
               (Hin c' (or_intror (or_introl eq_refl)))).
    now left.
Qed.

Lemma single_row_width (x : expense) : ncols (prepare_features [x]) = 6%nat.
Proof. reflexivity. Qed.

Lemma history_width (hist : list expense) :
  hist <> [] ->
  (ncols (prepare_features hist) = 6%nat
   <-> forall e e', In e hist -> In e' hist ->
         category e = category e' /\ payment_method e = payment_method e').
Proof.
  intros Hne. unfold prepare_features. cbn [ncols].
  assert (Hc : map category hist <> []) by (destruct hist; [ congruence | discriminate ]).
  assert (Hp : map payment_method hist <> [])
    by (destruct hist; [ congruence | discriminate ]).
  pose proof (dummy_columns_nonempty _ Hc) as Hgc.
  pose proof (dummy_columns_nonempty _ Hp) as Hgp.
  pose proof (dummy_columns_single (map category hist)) as Hsc.
  pose proof (dummy_columns_single (map payment_method hist)) as Hsp.
  split.
  - intros Hw e e' He He'.
    assert (H1 : List.length (dummy_columns (map category hist)) = 1%nat) by lia.
    assert (H2 : List.length (dummy_columns (map payment_method hist)) = 1%nat) by lia.
    apply Hsc in H1. apply Hsp in H2. split.
    + apply (proj2 H1); now apply in_map.
    + apply (proj2 H2); now apply in_map.
  - intros Hall.
    assert (H1 : List.length (dummy_columns (map category hist)) = 1%nat).
    { apply Hsc. split; [ exact Hc | ]. intros a b Ha Hb.
      apply in_map_iff in Ha, Hb. destruct Ha as [e [<- He]], Hb as [e' [<- He']].
      now apply Hall. }
    assert (H2 : List.length (dummy_columns (map payment_method hist)) = 1%nat).
    { apply Hsp. split; [ exact Hp | ]. intros a b Ha Hb.
      apply in_map_iff in Ha, Hb. destruct Ha as [e [<- He]], Hb as [e' [<- He']].
      now apply Hall. }
    lia.
Qed.

Variable L : IsolationForestLib.
Variable contamination : float.

(** A target as wide as its history is scored. *)
Lemma same_width_returns (now : Calendar.datetime) (uid eid : Z) (db : database)
  (x : expense) (new_df : list expense) :
  let df := select_user_expenses now uid 90 (expenses db) in
  (10 <= List.length df)%nat ->
  filter (fun e => (id e =? eid)%Z) df = x :: new_df ->
  ncols (prepare_features (x :: new_df))
  = ncols (prepare_features (filter (fun e => negb (id e =? eid)%Z) df)) ->
  is_raise (fst (check_new_expense L contamination now uid eid db)) = false.
Proof.
  intros df Hlen Hnew Hcols. unfold check_new_expense, bind, get_user_expenses.
  fold df. apply Nat.ltb_ge in Hlen. rewrite Hlen, Hnew. unfold lift.
  destruct (scaler_fit_transform_returns
              (prepare_features (filter (fun e => negb (id e =? eid)%Z) df)))
    as [Xs [HXs _]].
  rewrite HXs. unfold scaler_transform at 1. cbn [scaler_fit n_features_in_].
  rewrite Hcols, Nat.eqb_refl. reflexivity.
Qed.

End Vocabulary.

(** X10. When a window of at least ten transactions holds the target (keys
    being distinct, as the table's primary key makes them),
    [check_new_expense] returns a result exactly when all the other
    transactions of the window have one and the same category and one and
    the same payment method; with a second category or a second payment
    method among them it raises. *)
Theorem check_new_expense_needs_one_vocabulary :
  forall (L : IsolationForestLib) (contamination : float)
         (now : Calendar.datetime) (uid : Z) (x : expense) (db : database),
    let df := select_user_expenses now uid 90 (expenses db) in
    let hist := filter (fun e => negb (id e =? id x)%Z) df in
    NoDup (map id (expenses db)) ->
    (10 <= List.length df)%nat ->
    In x df ->
    is_raise (fst (check_new_expense L contamination now uid (id x) db)) = false
    <-> forall e e' : expense,
          In e hist -> In e' hist ->
          category e = category e' /\ payment_method e = payment_method e'.
Proof.
  intros L c now uid x db df hist Hnd Hlen Hin.
  assert (Hnew : filter (fun e => (id e =? id x)%Z) df = [x]).
  { apply filter_key_singleton; [ | exact Hin ].
    now apply select_user_expenses_NoDup. }
  assert (Hne : hist <> []).
  { pose proof (filter_length (fun e => (id e =? id x)%Z) df) as Hsplit.
    rewrite Hnew in Hsplit. cbn [List.length] in Hsplit. fold hist in Hsplit.
    intros E. rewrite E in Hsplit. cbn [List.length] in Hsplit. lia. }
  rewrite <- (history_width hist Hne).
  destruct (Nat.eq_dec (ncols (prepare_features [x])) (ncols (prepare_features hist)))
    as [Heq | Hneq].
  - split.
    + intros _. rewrite <- Heq. apply single_row_width.
    + intros _. exact (same_width_returns L c now uid (id x) db x [] Hlen Hnew Heq).
  - destruct (vocabulary_mismatch_raises L c now uid (id x) db x [] Hlen Hnew Hneq)
      as [Hraise _].
    split.
    + intros H. rewrite Hraise in H. discriminate H.
    + intros H. exfalso. apply Hneq. rewrite H. apply single_row_width.
Qed.

Lemma check_new_expense_needs_one_vocabulary_witness :
  is_raise (fst (check_new_expense Samples.amount_forest ANOMALY_CONTAMINATION
                   Samples.now0 1 (id (Samples.spent 1 500 "food" "upi" 0))
                   Samples.db_eleven)) = false
  <-> forall e e' : expense,
        In e (filter (fun e => negb (id e =? id (Samples.spent 1 500 "food" "upi" 0))%Z)
                (select_user_expenses Samples.now0 1 90 (expenses Samples.db_eleven))) ->
        In e' (filter (fun e => negb (id e =? id (Samples.spent 1 500 "food" "upi" 0))%Z)
                 (select_user_expenses Samples.now0 1 90 (expenses Samples.db_eleven))) ->
        category e = category e' /\ payment_method e = payment_method e'.
Proof.
  apply (check_new_expense_needs_one_vocabulary Samples.amount_forest
           ANOMALY_CONTAMINATION Samples.now0 1 (Samples.spent 1 500 "food" "upi" 0)
           Samples.db_eleven).
  - vm_compute. repeat constructor; cbn; intuition discriminate.
  - vm_compute. lia.
  - vm_compute. tauto.
Defined.

Section Batch.

Lemma NoDup_map_eq {A B : Type} (f : A -> B) (l : list A) (a b : A) :
  NoDup (map f l) -> In a l -> In b l -> f a = f b -> a = b.
Proof.
  induction l as [ | x l IH ]; intros Hnd Ha Hb Hf; [ destruct Ha | ].
  cbn [map] in Hnd. inversion Hnd as [ | y l0 Hx Hl ]; subst.
  destruct Ha as [-> | Ha], Hb as [-> | Hb].
  - reflexivity.
  - exfalso. apply Hx. rewrite Hf. now apply in_map.
  - exfalso. apply Hx. rewrite <- Hf. now apply in_map.
  - now apply IH.
Qed.

Lemma assign_twice (df : list expense) (flags : list bool) (scores : list float) :
  List.length flags = List.length df ->
  List.length scores = List.length df ->
  Forall2 (fun e r => exists a s, r = set_anomaly a s e) df
          (assign set_anomaly_score (assign set_is_anomaly df flags) scores).
Proof.
  revert flags scores.
  induction df as [ | e df IH ]; intros [ | a flags ] [ | s scores ] Hf Hs;
    try discriminate; cbn [assign]; constructor.
  - now exists a, s.
  - apply IH; cbn [List.length] in *; lia.
Qed.

Lemma Forall2_In_l {A B : Type} (R : A -> B -> Prop) (l : list A) (l' : list B) (a : A) :
  Forall2 R l l' -> In a l -> exists b, In b l' /\ R a b.
Proof.
  induction 1 as [ | x y l l' Hxy _ IH ]; intros Ha; [ destruct Ha | ].
  destruct Ha as [-> | Ha].
  - exists y. split; [ now left | exact Hxy ].
  - destruct (IH Ha) as [b [Hb Hab]]. exists b. split; [ now right | exact Hab ].
Qed.

Lemma Forall2_In_r {A B : Type} (R : A -> B -> Prop) (l : list A) (l' : list B) (b : B) :
  Forall2 R l l' -> In b l' -> exists a, In a l /\ R a b.
Proof.
  induction 1 as [ | x y l l' Hxy _ IH ]; intros Hb; [ destruct Hb | ].
  destruct Hb as [-> | Hb].
  - exists x. split; [ now left | exact Hxy ].
  - destruct (IH Hb) as [a [Ha Hab]]. exists a. split; [ now right | exact Hab ].
Qed.

Lemma rescored_ids (df scored : list expense) :
  Forall2 (fun e r => exists a s, r = set_anomaly a s e) df scored ->
  map id scored = map id df.
Proof.
  induction 1 as [ | x y l l' [a [s ->]] _ IH ]; [ reflexivity | ].
  cbn [map]. now rewrite IH.
Qed.

Lemma fold_written_same (scored : list expense) (t : expense) :
  same_transaction t (fold_left (fun e row => written row e) scored t).
Proof.
  revert t. induction scored as [ | r scored IH ]; intros t; cbn [fold_left].
  - now repeat split.
  - specialize (IH (written r t)). unfold same_transaction in *.
    assert (Hw : same_transaction t (written r t))
      by (unfold written; destruct (id t =? id r)%Z; now repeat split).
    unfold same_transaction in Hw.
    destruct IH as [? [? [? [? [? [? ?]]]]]], Hw as [? [? [? [? [? [? ?]]]]]].
    repeat split; congruence.
Qed.

Lemma fold_written_miss (scored : list expense) (t : expense) :
  (forall row, In row scored -> id row <> id t) ->
  fold_left (fun e row => written row e) scored t = t.
Proof.
  revert t. induction scored as [ | r scored IH ]; intros t Hmiss; cbn [fold_left];
    [ reflexivity | ].
  assert (Hw : written r t = t).
  { unfold written. replace (id t =? id r)%Z with false; [ reflexivity | ].
    symmetry. apply Z.eqb_neq. intros E. apply (Hmiss r); [ now left | now symmetry ]. }
  rewrite Hw. apply IH. intros row Hrow. apply Hmiss. now right.
Qed.

Lemma fold_written_hit (scored : list expense) (t row : expense) :
  NoDup (map id scored) -> In row scored -> id row = id t ->
  fold_left (fun e row => written row e) scored t
  = set_anomaly (is_anomaly row) (anomaly_score row) t.
Proof.
  revert t. induction scored as [ | r scored IH ]; intros t Hnd Hin Hid;
    [ destruct Hin | ].
  cbn [map] in Hnd. inversion Hnd as [ | y l0 Hr Hl ]; subst.
  cbn [fold_left]. destruct Hin as [-> | Hin].
  - unfold written at 2. rewrite Hid, Z.eqb_refl. apply fold_written_miss.
    intros row' Hrow' E. apply Hr. cbn [set_anomaly id] in E. rewrite Hid, <- E.
    now apply in_map.
  - assert (Hw : written r t = t).
    { unfold written. replace (id t =? id r)%Z with false; [ reflexivity | ].
      symmetry. apply Z.eqb_neq. intros E. apply Hr. rewrite <- E, <- Hid.
      now apply in_map. }
    rewrite Hw. now apply IH.
Qed.

Variable L : IsolationForestLib.
Variable contamination : float.

(** From ten rows on [detect_anomalies] gives every row of the window a
    status, writes each to the row of that key and returns the rows it
    flagged. *)
Lemma detect_anomalies_rescores (now : Calendar.datetime) (uid : Z) (db : database) :
  let df := select_user_expenses now uid 90 (expenses db) in
  (10 <= List.length df)%nat ->
  exists scored : list expense,
    Forall2 (fun e r => exists a s, r = set_anomaly a s e) df scored
    /\ detect_anomalies L contamination now uid db
       = (Return (filter is_anomaly scored),
          mkdatabase
            (map (fun e => fold_left (fun e row => written row e) scored e)
                 (expenses db))
            (preferences db) (forecasts db)).
Proof.
  intros df Hlen.
  destruct (scaler_fit_transform_returns (prepare_features df)) as [Xs [HXs HlenXs]].
  exists (assign set_anomaly_score
            (assign set_is_anomaly df
               (map (fun p => (p =? -1)%Z)
                    (map (if_predict L (model_fit L contamination Xs)) (rows Xs))))
            (map PrimFloat.opp
                 (map (if_score_samples L (model_fit L contamination Xs)) (rows Xs)))).
  assert (Hrows : List.length (rows Xs) = List.length df)
    by (rewrite HlenXs; unfold prepare_features; cbn [rows]; apply length_map).
  split.
  - apply assign_twice; now rewrite !length_map.
  - unfold detect_anomalies, bind at 1, get_user_expenses. fold df.
    apply Nat.ltb_ge in Hlen. rewrite Hlen.
    unfold bind, lift. rewrite HXs, iterrows_update. reflexivity.
Qed.

End Batch.

(** X11. On a window of at least ten transactions (keys being distinct)
    [detect_anomalies] returns exactly the rows of the window that the
    store holds flagged afterwards, each as it is stored. Every row of the
    table keeps its place and every column but the status; rows outside
    the window, the preferences and the forecasts are not written. *)
Theorem detect_anomalies_returns_what_it_stores :
  forall (L : IsolationForestLib) (contamination : float)
         (now : Calendar.datetime) (uid : Z) (db : database),
    NoDup (map id (expenses db)) ->
    (10 <= List.length (select_user_expenses now uid 90 (expenses db)))%nat ->
    exists (flagged : list expense) (db' : database),
      detect_anomalies L contamination now uid db = (Return flagged, db')
      /\ (forall e : expense,
             In e flagged
             <-> In e (expenses db')
                 /\ in_window now uid 90 e = true /\ is_anomaly e = true)
      /\ Forall2 (fun e e' => same_transaction e e'
                              /\ (in_window now uid 90 e = false -> e' = e))
                 (expenses db) (expenses db')
      /\ preferences db' = preferences db
      /\ forecasts db' = forecasts db.
Proof.
  intros L c now uid db Hnd Hlen.
  destruct (detect_anomalies_rescores L c now uid db Hlen) as [scored [Hsc Hrun]].
  set (df := select_user_expenses now uid 90 (expenses db)) in *.
  assert (Hperm : Permutation (filter (in_window now uid 90) (expenses db)) df)
    by apply order_by_timestamp_desc_perm.
  assert (Hdf : forall e, In e df <-> In e (expenses db) /\ in_window now uid 90 e = true).
  { intros e. rewrite <- filter_In. split; apply Permutation_in;
      [ now apply Permutation_sym | exact Hperm ]. }
  assert (Hids : NoDup (map id scored)).
  { rewrite (rescored_ids df scored Hsc). now apply select_user_expenses_NoDup. }
  assert (Hwin : forall t t', same_transaction t t' ->
                              in_window now uid 90 t' = in_window now uid 90 t).
  { intros t t' [_ [Hu [_ [_ [_ [_ Ht]]]]]]. unfold in_window. now rewrite Hu, Ht. }
  do 2 eexists. split; [ exact Hrun | ]. cbn [expenses preferences forecasts].
  split; [ | split; [ | split; reflexivity ] ].
  - intros e. split.
    + intros He. apply filter_In in He. destruct He as [He Hflag].
      destruct (Forall2_In_r _ _ _ e Hsc He) as [e0 [He0 [a [s Hes]]]].
      apply Hdf in He0. destruct He0 as [Hin0 Hw0].
      split; [ | split; [ | exact Hflag ] ].
      * apply in_map_iff. exists e0. split; [ | exact Hin0 ].
        rewrite (fold_written_hit scored e0 e Hids He); [ | now subst e ].
        now subst e.
      * subst e. exact Hw0.
    + intros [He [Hw Hflag]]. apply in_map_iff in He. destruct He as [t [Ht Hin]].
      pose proof (fold_written_same scored t) as Hsame. rewrite Ht in Hsame.
      rewrite (Hwin t e Hsame) in Hw.
      destruct (Forall2_In_l _ _ _ t Hsc (proj2 (Hdf t) (conj Hin Hw)))
        as [r [Hr [a [s Hrs]]]].
      rewrite (fold_written_hit scored t r Hids Hr) in Ht by now subst r.
      assert (Her : e = r) by (subst r; cbn [set_anomaly is_anomaly anomaly_score] in Ht;
                               now symmetry).
      subst e. apply filter_In. rewrite Her in Hflag |- *. now split.
  - assert (H : forall l, (forall t, In t l -> In t (expenses db)) ->
               Forall2 (fun e e' => same_transaction e e'
                                    /\ (in_window now uid 90 e = false -> e' = e))
                       l (map (fun e => fold_left (fun e row => written row e) scored e) l)).
    { induction l as [ | t l IH ]; intros Hl; cbn [map]; constructor.
      - split; [ apply fold_written_same | ].
        intros Hout. apply fold_written_miss. intros row Hrow Hid.
        destruct (Forall2_In_r _ _ _ row Hsc Hrow) as [e0 [He0 [a [s Hes]]]].
        apply Hdf in He0. destruct He0 as [Hin0 Hw0].
        assert (E : e0 = t).
        { apply (NoDup_map_eq id (expenses db)); [ exact Hnd | exact Hin0 | | ].
          - apply Hl. now left.
          - now subst row. }
        subst e0. congruence.
      - apply IH. intros x Hx. apply Hl. now right. }
    apply H. auto.
Qed.

Lemma detect_anomalies_returns_what_it_stores_witness :
  exists (flagged : list expense) (db' : database),
    detect_anomalies Samples.amount_forest ANOMALY_CONTAMINATION Samples.now0 1
                     Samples.db_ten = (Return flagged, db')
    /\ (forall e : expense,
           In e flagged
           <-> In e (expenses db')
               /\ in_window Samples.now0 1 90 e = true /\ is_anomaly e = true)
    /\ Forall2 (fun e e' => same_transaction e e'
                            /\ (in_window Samples.now0 1 90 e = false -> e' = e))
               (expenses Samples.db_ten) (expenses db')
    /\ preferences db' = preferences Samples.db_ten
    /\ forecasts db' = forecasts Samples.db_ten.
Proof.
  apply (detect_anomalies_returns_what_it_stores Samples.amount_forest
           ANOMALY_CONTAMINATION Samples.now0 1 Samples.db_ten).
  - vm_compute. repeat constructor; cbn; intuition discriminate.
  - vm_compute. lia.
Defined.

(** * Further properties of the predictive analyzer *)

Section DailySeries.

Local Open Scope Z_scope.

Lemma add_to_day_sorted (d : Z) (a : float) (l : list (Z * float)) :
  StronglySorted Z.lt (map fst l) ->
  StronglySorted Z.lt (map fst (add_to_day d a l)).
Proof.
  induction l as [ | [d' s] l IH ]; intros Hl; cbn [add_to_day].
  - repeat constructor.
  - cbn [map fst] in Hl. apply StronglySorted_inv in Hl. destruct Hl as [Hl Hd'].
    destruct (d =? d') eqn:E1; [ now constructor | ].
    destruct (d <? d') eqn:E2.
    + apply Z.ltb_lt in E2. cbn [map fst]. constructor; [ now constructor | ].
      constructor; [ exact E2 | ].
      eapply Forall_impl; [ | exact Hd' ]. intros y Hy. lia.
    + apply Z.ltb_ge in E2. apply Z.eqb_neq in E1. cbn [map fst].
      constructor; [ now apply IH | ].
      apply Forall_forall. intros y Hy. apply add_to_day_In in Hy.
      destruct Hy as [-> | Hy]; [ lia | ].
      exact (proj1 (Forall_forall _ _) Hd' y Hy).
Qed.

Lemma _daily_series_sorted (df : list expense) :
  StronglySorted Z.lt (map fst (_daily_series df)).
Proof.
  unfold _daily_series.
  assert (H : forall acc,
             StronglySorted Z.lt (map fst acc) ->
             StronglySorted Z.lt
               (map fst (fold_left
                           (fun acc e => add_to_day (Calendar.date (timestamp e))
                                                    (amount e) acc) df acc))).
  { induction df as [ | e df IH ]; intros acc Hacc; cbn [fold_left].
    - exact Hacc.
    - now apply IH, add_to_day_sorted. }
  apply H. constructor.
Qed.

Lemma increasing_days_are_distinct (l : list Z) : StronglySorted Z.lt l -> NoDup l.
Proof.
  induction 1 as [ | d l Hl IH Hd ]; constructor; [ | exact IH ].
  intros Hin. apply (proj1 (Forall_forall _ _) Hd) in Hin. lia.
Qed.

End DailySeries.

(** X12. [_daily_series] has one row per day on which the frame has a
    transaction: its days are strictly increasing, they are exactly the days
    of the transactions, and so there are as many rows as the frame has
    distinct days. *)
Theorem _daily_series_has_one_row_per_day :
  forall df : list expense,
    let ts := _daily_series df in
    StronglySorted Z.lt (map fst ts)
    /\ (forall d : Z,
           In d (map fst ts)
           <-> exists e : expense, In e df /\ Calendar.date (timestamp e) = d)
    /\ List.length ts
       = List.length (nodup Z.eq_dec (map (fun e => Calendar.date (timestamp e)) df)).
Proof.
  intros df ts. unfold ts. split; [ apply _daily_series_sorted | ]. split.
  - intros d. rewrite _daily_series_days, in_map_iff. split.
    + intros [e [He Hin]]. now exists e.
    + intros [e [Hin He]]. now exists e.
  - rewrite <- (length_map fst). apply Permutation_length, NoDup_Permutation.
    + apply increasing_days_are_distinct, _daily_series_sorted.
    + apply NoDup_nodup.
    + intros d. now rewrite _daily_series_days, nodup_In.
Qed.


(** X14. Past the gate on the number of transactions
    [forecast_expenses_prophet] never returns. With fewer than two days
    that have a total, Prophet's fit raises [ValueError] (the gate counts
    transactions, the fit needs days); otherwise the comparison of the
    forecast's dates with the last day of the series raises [TypeError].
    Either way the store is left as it was. *)
Theorem forecast_raises_past_the_gate :
  forall (P : ProphetLib) (forecast_days min_data_points : nat)
         (now : Calendar.datetime) (uid : Z) (db : database),
    let df := select_user_expenses now uid 90 (expenses db) in
    (min_data_points <= List.length df)%nat ->
    forecast_expenses_prophet P forecast_days min_data_points now uid db
    = (Raise
         (if (List.length (filter (fun r => negb (isnan (snd r))) (_daily_series df))
              <? 2)%nat
          then ValueError "Dataframe has less than 2 non-NaN rows."
          else TypeError "Invalid comparison between dtype=datetime64[ns] and date"),
       db).
Proof.
  intros P fd mdp now uid db df Hlen.
  unfold forecast_expenses_prophet, bind at 1, get_user_expenses. fold df.
  apply Nat.ltb_ge in Hlen. rewrite Hlen.
  unfold bind at 1, lift, Prophet_fit.
  destruct (List.length _ <? 2)%nat; reflexivity.
Qed.

Lemma forecast_raises_past_the_gate_witness :
  forecast_expenses_prophet Samples.flat_prophet FORECAST_DAYS MIN_DATA_POINTS
                            Samples.now0 1 Samples.db_month
  = (Raise
       (if (List.length
              (filter (fun r => negb (isnan (snd r)))
                 (_daily_series
                    (select_user_expenses Samples.now0 1 90
                                          (expenses Samples.db_month))))
            <? 2)%nat
        then ValueError "Dataframe has less than 2 non-NaN rows."
        else TypeError "Invalid comparison between dtype=datetime64[ns] and date"),
     Samples.db_month).
Proof.
  apply (forecast_raises_past_the_gate Samples.flat_prophet FORECAST_DAYS
           MIN_DATA_POINTS Samples.now0 1 Samples.db_month).
  vm_compute. lia.
Defined.

Section CategoryForecast.

Variable forecast_days : nat.

Lemma unique_In (l : list string) (x : string) : In x (unique l) <-> In x l.
Proof.
  induction l as [ | c l IH ]; cbn [unique]; [ reflexivity | ].
  cbn [In]. rewrite filter_In, IH. split.
  - intros [H | [H _]]; auto.
  - intros [H | H]; [ now left | ].
    destruct (String.eqb_spec x c) as [-> | Hne]; [ now left | right; now split ].
Qed.

Lemma unique_NoDup (l : list string) : NoDup (unique l).
Proof.
  induction l as [ | c l IH ]; cbn [unique]; constructor.
  - intros H. apply filter_In in H. destruct H as [_ H].
    now rewrite String.eqb_refl in H.
  - now apply NoDup_filter.
Qed.

Lemma dict_set_fresh {V : Type} (d : list (string * V)) (k : string) (v : V) :
  ~ In k (map fst d) -> dict_set d k v = d ++ [(k, v)].
Proof.
  induction d as [ | [k' v'] d IH ]; intros Hk; cbn [dict_set]; [ reflexivity | ].
  replace (String.eqb k' k) with false.
  - cbn [app]. f_equal. apply IH. intros H. apply Hk. now right.
  - symmetry. apply String.eqb_neq. intros ->. apply Hk. now left.
Qed.

(** The loop over the categories adds one item for each category with ten
    transactions or more, in the order of the loop. *)
Lemma category_loop (df : list expense) (cats : list string)
  (summary : list (string * category_forecast)) :
  NoDup cats ->
  (forall c, In c cats -> ~ In c (map fst summary)) ->
  exists added : list (string * category_forecast),
    fold_left (category_step forecast_days df) cats summary = summary ++ added
    /\ map fst added
       = filter (fun c => (10 <=? List.length
                                    (filter (fun e => String.eqb (category e) c) df))%nat)
                cats
    /\ forall c v, In (c, v) added ->
         cf_predicted_total v = (daily_average v * float_of_nat forecast_days)%float.
Proof.
  revert summary.
  induction cats as [ | c cats IH ]; intros summary Hnd Hfresh; cbn [fold_left].
  - exists []. rewrite app_nil_r. split; [ reflexivity | ]. split; [ reflexivity | ].
    intros c v [].
  - inversion Hnd as [ | c0 l0 Hc Hcats ]; subst. unfold category_step at 2.
    cbn [filter]. rewrite Nat.ltb_antisym.
    destruct (10 <=? List.length _)%nat; cbn [negb].
    + rewrite dict_set_fresh by (apply Hfresh; now left).
      destruct (IH (summary ++
                    [(c, mkcategory_forecast
                           (series_mean
                              (map snd (_daily_series
                                          (filter (fun e => String.eqb (category e) c) df)))
                            * float_of_nat forecast_days)%float
                           (series_mean
                              (map snd (_daily_series
                                          (filter (fun e => String.eqb (category e) c) df))))
                           (series_std 0
                              (map snd (_daily_series
                                          (filter (fun e => String.eqb (category e) c) df)))))])
                  Hcats) as [added [Hrun [Hkeys Hvals]]].
      { intros c' Hc' Hin. rewrite map_app, in_app_iff in Hin.
        destruct Hin as [Hin | [<- | []]].
        - apply (Hfresh c'); [ now right | exact Hin ].
        - now apply Hc. }
      eexists (_ :: added). split; [ | split ].
      * rewrite Hrun, <- app_assoc. reflexivity.
      * cbn [map fst]. now rewrite Hkeys.
      * intros c' v [Heq | Hin]; [ | now apply (Hvals c') ].
        injection Heq as _ <-. reflexivity.
    + apply IH; [ exact Hcats | ]. intros c' Hc'. apply Hfresh. now right.
Qed.

End CategoryForecast.

(** X15. [forecast_by_category] never raises and never writes. Below the
    gate on the number of transactions it reports "Not enough data"; past
    it, its dictionary has one item for each category with at least ten
    transactions in the window and for no other, each item's predicted
    total is its daily average times the horizon, and the total is the sum
    of the items' predicted totals. *)
Theorem forecast_by_category_keeps_the_frequent_categories :
  forall (forecast_days min_data_points : nat)
         (now : Calendar.datetime) (uid : Z) (db : database),
    let df := select_user_expenses now uid 90 (expenses db) in
    exists r : category_result,
      forecast_by_category forecast_days min_data_points now uid db = (Return r, db)
      /\ ((List.length df < min_data_points)%nat ->
          r = CategoryFailure "Not enough data")
      /\ ((min_data_points <= List.length df)%nat ->
          exists summary : list (string * category_forecast),
            r = CategorySuccess summary
                  (series_sum (map (fun kv => cf_predicted_total (snd kv)) summary))
            /\ NoDup (map fst summary)
            /\ (forall c : string,
                   In c (map fst summary)
                   <-> (10 <= List.length
                                (filter (fun e => String.eqb (category e) c) df))%nat)
            /\ forall (c : string) (v : category_forecast),
                 In (c, v) summary ->
                 cf_predicted_total v
                 = (daily_average v * float_of_nat forecast_days)%float).
Proof.
  intros fd mdp now uid db df.
  unfold forecast_by_category, bind, get_user_expenses, ret. fold df.
  destruct (Nat.ltb_spec (List.length df) mdp) as [Hlt | Hge].
  - eexists. split; [ reflexivity | ]. split; [ reflexivity | ]. intros H. lia.
  - eexists. split; [ reflexivity | ]. split; [ intros H; lia | ]. intros _.
    destruct (category_loop fd df (unique (map category df)) [] (unique_NoDup _))
      as [added [Hrun [Hkeys Hvals]]]; [ intros c _ [] | ].
    cbn [app] in Hrun. exists added. rewrite Hrun.
    split; [ reflexivity | ]. split; [ | split; [ | exact Hvals ] ].
    + rewrite Hkeys. apply NoDup_filter, unique_NoDup.
    + intros c. rewrite Hkeys, filter_In, unique_In, Nat.leb_le. split; [ tauto | ].
      intros Hc. split; [ | exact Hc ].
      destruct (filter (fun e => String.eqb (category e) c) df) as [ | e l ] eqn:E;
        [ cbn in Hc; lia | ].
      assert (He : In e (filter (fun e => String.eqb (category e) c) df))
        by (rewrite E; now left).
      apply filter_In in He. destruct He as [He Hcat].
      apply String.eqb_eq in Hcat. subst c. now apply in_map.
Qed.

(** * Properties of the spending summary *)

Section Summary.

Lemma add_to_key_In (k x : string) (a : float) (l : list (string * float)) :
  In x (map fst (add_to_key k a l)) <-> x = k \/ In x (map fst l).
Proof.
  induction l as [ | [k' s] l IH ]; cbn [add_to_key].
  - cbn. intuition.
  - destruct (String.compare k k') eqn:E.
    + apply String.compare_eq_iff in E. subst k'. cbn. intuition.
    + cbn. intuition.
    + cbn [map fst In]. rewrite IH. intuition.
Qed.

Lemma add_to_key_sorted (k : string) (a : float) (l : list (string * float)) :
  StronglySorted String_as_OT.lt (map fst l) ->
  StronglySorted String_as_OT.lt (map fst (add_to_key k a l)).
Proof.
  induction l as [ | [k' s] l IH ]; intros Hl; cbn [add_to_key].
  - repeat constructor.
  - cbn [map fst] in Hl. apply StronglySorted_inv in Hl. destruct Hl as [Hl Hk'].
    destruct (String.compare k k') eqn:E.
    + now constructor.
    + apply String_as_OT.cmp_lt in E. cbn [map fst].
      constructor; [ now constructor | ]. constructor; [ exact E | ].
      apply Forall_forall. intros y Hy.
      apply (String_as_OT.lt_trans _ _ _ E).
      exact (proj1 (Forall_forall _ _) Hk' y Hy).
    + assert (Hlt : String_as_OT.lt k' k).
      { apply String_as_OT.cmp_lt. unfold String_as_OT.cmp.
        rewrite String_as_OT.cmp_antisym. unfold String_as_OT.cmp. now rewrite E. }
      cbn [map fst]. constructor; [ now apply IH | ].
      apply Forall_forall. intros y Hy. apply add_to_key_In in Hy.
      destruct Hy as [-> | Hy]; [ exact Hlt | ].
      exact (proj1 (Forall_forall _ _) Hk' y Hy).
Qed.

(** The keys of a grouped sum: the values of the key in the frame, sorted. *)
Lemma groupby_sum_keys (key : expense -> string) (df : list expense) :
  StronglySorted String_as_OT.lt (map fst (groupby_sum key df))
  /\ forall x, In x (map fst (groupby_sum key df)) <-> exists e, In e df /\ key e = x.
Proof.
  unfold groupby_sum.
  assert (H : forall acc,
             StronglySorted String_as_OT.lt (map fst acc) ->
             StronglySorted String_as_OT.lt
               (map fst (fold_left (fun acc e => add_to_key (key e) (amount e) acc)
                                   df acc))
             /\ forall x,
                  In x (map fst (fold_left
                                   (fun acc e => add_to_key (key e) (amount e) acc)
                                   df acc))
                  <-> (exists e, In e df /\ key e = x) \/ In x (map fst acc)).
  { induction df as [ | e df IH ]; intros acc Hacc; cbn [fold_left].
    - split; [ exact Hacc | ]. intros x. split; [ now right | ].
      intros [[e [[] _]] | H]; exact H.
    - destruct (IH _ (add_to_key_sorted (key e) (amount e) acc Hacc)) as [Hs Hin].
      split; [ exact Hs | ]. intros x. rewrite Hin, add_to_key_In. split.
      + intros [[e' [He' Hk]] | [-> | Hx]].
        * left. exists e'. split; [ now right | exact Hk ].
        * left. exists e. split; [ now left | reflexivity ].
        * now right.
      + intros [[e' [[<- | He'] Hk]] | Hx].
        * right. left. now symmetry.
        * left. now exists e'.
        * right. now right. }
  destruct (H [] (SSorted_nil _)) as [Hs Hin]. split; [ exact Hs | ].
  intros x. rewrite Hin. cbn. tauto.
Qed.

End Summary.

(** X16. [get_spending_summary] never raises and never writes. Its two
    breakdowns have one item per category, respectively payment method, of
    the window, in sorted order; the percentages are given for the same
    categories when the total is positive, and there are none (with a
    monthly average of 0) when it is not; the anomalies counted are the
    flagged rows of the window, and the preferences are the user's row. *)
Theorem spending_summary_covers_the_window :
  forall (now : Calendar.datetime) (uid : Z) (db : database),
    let df := select_user_expenses now uid 90 (expenses db) in
    exists s : spending_summary,
      get_spending_summary now uid db = (Return s, db)
      /\ StronglySorted String_as_OT.lt (map fst (category_spending s))
      /\ (forall c : string,
             In c (map fst (category_spending s))
             <-> exists e, In e df /\ category e = c)
      /\ StronglySorted String_as_OT.lt (map fst (payment_breakdown s))
      /\ (forall p : string,
             In p (map fst (payment_breakdown s))
             <-> exists e, In e df /\ payment_method e = p)
      /\ (if (0 <? total_spending_90days s)%float
          then map fst (category_percentages s) = map fst (category_spending s)
          else category_percentages s = [] /\ monthly_average s = 0%float)
      /\ anomalies_detected s = List.length (filter is_anomaly df)
      /\ summary_preferences s = select_user_preferences uid (preferences db).
Proof.
  intros now uid db df.
  unfold get_spending_summary, bind, get_user_expenses, get_user_preferences, ret.
  fold df. eexists. split; [ reflexivity | ].
  cbn [category_spending payment_breakdown category_percentages
       total_spending_90days monthly_average anomalies_detected summary_preferences].
  assert (Hcat : (if match df with [] => true | _ :: _ => false end
                  then [] else groupby_sum category df) = groupby_sum category df)
    by now destruct df.
  assert (Hpay : (if match df with [] => true | _ :: _ => false end
                  then [] else groupby_sum payment_method df)
                 = groupby_sum payment_method df)
    by now destruct df.
  rewrite Hcat, Hpay.
  destruct (groupby_sum_keys category df) as [Hs1 Hin1].
  destruct (groupby_sum_keys payment_method df) as [Hs2 Hin2].
  repeat (split; [ assumption | ]).
  split; [ | split; reflexivity ].
  destruct (0 <? _)%float.
  - rewrite map_map. reflexivity.
  - split; reflexivity.
Qed.

Section AfterTheBatch.

(** Seen from the rows of the window, the writes of [detect_anomalies] turn
    each row into its scored version. *)
Lemma rescored_window (scored l l' : list expense) :
  NoDup (map id scored) ->
  Forall2 (fun e r => exists a s, r = set_anomaly a s e) l l' ->
  (forall r, In r l' -> In r scored) ->
  map (fun e => fold_left (fun e row => written row e) scored e) l = l'.
Proof.
  intros Hids. induction 1 as [ | e r l l' [a [s Hr]] _ IH ]; intros Hsub;
    [ reflexivity | ].
  cbn [map]. f_equal.
  - rewrite (fold_written_hit scored e r Hids); [ | apply Hsub; now left | now subst r ].
    now subst r.
  - apply IH. intros x Hx. apply Hsub. now right.
Qed.

End AfterTheBatch.

(** X17. After [detect_anomalies] has run on a window of at least ten
    transactions (keys being distinct), the flagged rows of the window, as
    [get_user_expenses] reads them back at the same clock reading, are the
    frame [detect_anomalies] returned, in the same order; so the
    [anomalies_detected] of the spending summary is the number of rows it
    returned. *)
Theorem summary_counts_the_anomalies_just_detected :
  forall (L : IsolationForestLib) (contamination : float)
         (now : Calendar.datetime) (uid : Z) (db : database),
    NoDup (map id (expenses db)) ->
    (10 <= List.length (select_user_expenses now uid 90 (expenses db)))%nat ->
    exists (flagged : list expense) (db' : database) (s : spending_summary),
      detect_anomalies L contamination now uid db = (Return flagged, db')
      /\ filter is_anomaly (select_user_expenses now uid 90 (expenses db')) = flagged
      /\ get_spending_summary now uid db' = (Return s, db')
      /\ anomalies_detected s = List.length flagged.
Proof.
  intros L c now uid db Hnd Hlen.
  destruct (detect_anomalies_rescores L c now uid db Hlen) as [scored [Hsc Hrun]].
  assert (Hids : NoDup (map id scored)).
  { rewrite (rescored_ids _ scored Hsc). now apply select_user_expenses_NoDup. }
  assert (Hwindow : select_user_expenses now uid 90
                      (map (fun e => fold_left (fun e row => written row e) scored e)
                           (expenses db))
                    = scored).
  { rewrite select_user_expenses_map.
    - apply (rescored_window scored _ scored Hids Hsc). auto.
    - intros x. apply (fold_written_same scored x).
    - intros x. apply (fold_written_same scored x). }
  do 3 eexists. split; [ exact Hrun | ]. cbn [expenses].
  split; [ now rewrite Hwindow | ].
  unfold get_spending_summary, bind, get_user_expenses, get_user_preferences, ret.
  cbn [expenses]. split; [ reflexivity | ].
  cbn [anomalies_detected]. now rewrite Hwindow.
Qed.

Lemma summary_counts_the_anomalies_just_detected_witness :
  exists (flagged : list expense) (db' : database) (s : spending_summary),
    detect_anomalies Samples.amount_forest ANOMALY_CONTAMINATION Samples.now0 1
                     Samples.db_ten = (Return flagged, db')
    /\ filter is_anomaly (select_user_expenses Samples.now0 1 90 (expenses db')) = flagged
    /\ get_spending_summary Samples.now0 1 db' = (Return s, db')
    /\ anomalies_detected s = List.length flagged.
Proof.
  apply (summary_counts_the_anomalies_just_detected Samples.amount_forest
           ANOMALY_CONTAMINATION Samples.now0 1 Samples.db_ten).
  - vm_compute. repeat constructor; cbn; intuition discriminate.
  - vm_compute. lia.
Defined.

(** * Recording an expense *)

Section Handler.

Variable L : IsolationForestLib.
Variable contamination : float.

(** The four ways [check_new_expense] ends. *)
Lemma check_new_expense_outcome (now : Calendar.datetime) (uid eid : Z) (db : database) :
  let df := select_user_expenses now uid 90 (expenses db) in
  ((List.length df < 10)%nat
   /\ check_new_expense L contamination now uid eid db
      = (Return (false, 0%float, NotEnoughData), db))
  \/ ((10 <= List.length df)%nat
      /\ filter (fun e => (id e =? eid)%Z) df = []
      /\ check_new_expense L contamination now uid eid db
         = (Return (false, 0%float, ExpenseNotFound), db))
  \/ ((10 <= List.length df)%nat
      /\ exists e, check_new_expense L contamination now uid eid db = (Raise e, db))
  \/ ((10 <= List.length df)%nat
      /\ exists a s m,
           is_explanation m = true
           /\ check_new_expense L contamination now uid eid db
              = (Return (a, s, m), snd (update_anomaly_status eid a s db))).
Proof.
  intros df.
  destruct (Nat.ltb_spec (List.length df) 10) as [Hlen | Hlen].
  - left. split; [ exact Hlen | now apply check_new_expense_short ].
  - right. destruct (filter (fun e => (id e =? eid)%Z) df) as [ | x new_df ] eqn:Hnew.
    + left. split; [ exact Hlen | ]. split; [ reflexivity | ].
      unfold check_new_expense, bind, get_user_expenses. fold df.
      apply Nat.ltb_ge in Hlen. now rewrite Hlen, Hnew.
    + right.
      destruct (check_new_expense_scoring L contamination now uid eid db x new_df
                  Hlen Hnew) as [[e He] | [a [s [Hr _]]]].
      * left. split; [ exact Hlen | now exists e ].
      * right. split; [ exact Hlen | ]. do 3 eexists.
        split; [ | exact Hr ]. apply _explain_is_explanation.
Qed.

(** A status written to a key above those of the table changes no row. *)
Lemma update_above_the_keys (table : list expense) (a : bool) (s : float) :
  map (fun e => if (id e =? next_id table)%Z then set_anomaly a s e else e) table
  = table.
Proof.
  rewrite <- (map_id table) at 2. apply map_ext_in. intros e He.
  pose proof (next_id_above table e He) as Hlt.
  replace (id e =? next_id table)%Z with false; [ reflexivity | ].
  symmetry. apply Z.eqb_neq. lia.
Qed.

End Handler.

(** X18. The handler's insertion followed by the check: however the check
    ends, with a result or with an exception, the store holds the new
    expense under a fresh key behind the rows it had, which are unchanged,
    as are the preferences and the forecasts. When the check returns, the
    status it reports is the status the stored row carries; when it raises,
    the row is left with the defaults (not flagged, score 0). *)
Theorem recorded_expense_is_kept :
  forall (L : IsolationForestLib) (contamination : float)
         (t now : Calendar.datetime) (uid : Z) (amt : float)
         (cat pay desc : string) (db : database),
    let i := next_id (expenses db) in
    let run := record_expense L contamination t now uid amt cat pay desc db in
    exists (a : bool) (s : float),
      expenses (snd run) = expenses db ++ [mkexpense i uid amt cat pay desc t a s]
      /\ preferences (snd run) = preferences db
      /\ forecasts (snd run) = forecasts db
      /\ match fst run with
         | Return (k, (a', s', _)) => k = i /\ a' = a /\ s' = s
         | Raise _ => a = false /\ s = 0%float
         end.
Proof.
  intros L c t now uid amt cat pay desc db i run. unfold run. clear run.
  unfold record_expense, bind, add_expense. fold i.
  set (db1 := mkdatabase (expenses db ++ [mkexpense i uid amt cat pay desc t false 0%float])
                         (preferences db) (forecasts db)).
  destruct (check_new_expense_outcome L c now uid i db1)
    as [[_ Hrun] | [[_ [_ Hrun]] | [[_ [e Hrun]] | [_ [a [s [m [_ Hrun]]]]]]]];
    rewrite Hrun; cbn [fst snd].
  - exists false, 0%float. now repeat split.
  - exists false, 0%float. now repeat split.
  - exists false, 0%float. now repeat split.
  - exists a, s. cbn [update_anomaly_status snd db1 expenses preferences forecasts].
    split; [ | now repeat split ].
    rewrite map_app. unfold i. rewrite update_above_the_keys.
    cbn [map id]. now rewrite Z.eqb_refl.
Qed.

(** X19. When the check follows the insertion within the window (as it
    does: the two are consecutive statements), the handler never gets
    "Expense not found", and it gets "Not enough data" exactly when the
    user had fewer than nine transactions in the window before this one;
    with nine or more the expense is scored, or the check raises. *)
Theorem recorded_expense_is_checked :
  forall (L : IsolationForestLib) (contamination : float)
         (t now : Calendar.datetime) (uid : Z) (amt : float)
         (cat pay desc : string) (db : database),
    Calendar.leb (Calendar.add_days now (- 90)) t = true ->
    let before := select_user_expenses now uid 90 (expenses db) in
    match fst (record_expense L contamination t now uid amt cat pay desc db) with
    | Return (_, (_, _, m)) =>
        m <> ExpenseNotFound
        /\ (m = NotEnoughData <-> (List.length before < 9)%nat)
        /\ (is_explanation m = true <-> (9 <= List.length before)%nat)
    | Raise _ => (9 <= List.length before)%nat
    end.
Proof.
  intros L c t now uid amt cat pay desc db Ht before.
  unfold record_expense, bind, add_expense.
  set (i := next_id (expenses db)).
  set (row := mkexpense i uid amt cat pay desc t false 0%float).
  set (db1 := mkdatabase (expenses db ++ [row]) (preferences db) (forecasts db)).
  assert (Hsel : select_user_expenses now uid 90 (expenses db1) = insert_desc row before).
  { unfold db1. cbn [expenses]. rewrite select_user_expenses_app.
    unfold in_window, row. cbn [user_id timestamp Z.opp]. now rewrite Z.eqb_refl, Ht. }
  assert (Hlen : List.length (select_user_expenses now uid 90 (expenses db1))
                 = S (List.length before)).
  { rewrite Hsel. now rewrite <- (Permutation_length (insert_desc_perm row before)). }
  assert (Hin : In row (select_user_expenses now uid 90 (expenses db1))).
  { rewrite Hsel. apply (Permutation_in row (insert_desc_perm row before)). now left. }
  destruct (check_new_expense_outcome L c now uid i db1)
    as [[Hn Hrun] | [[Hn [Hnone Hrun]] | [[Hn [e Hrun]] | [Hn [a [s [m [Hm Hrun]]]]]]]];
    rewrite Hrun; cbn [fst]; rewrite Hlen in Hn.
  - split; [ discriminate | ]. split; [ split; [ lia | reflexivity ] | ].
    cbn. split; [ discriminate | lia ].
  - exfalso.
    assert (H : In row (filter (fun e => (id e =? i)%Z)
                          (select_user_expenses now uid 90 (expenses db1)))).
    { apply filter_In. split; [ exact Hin | ]. unfold row. cbn [id]. apply Z.eqb_refl. }
    rewrite Hnone in H. destruct H.
  - lia.
  - split; [ intros ->; discriminate Hm | ].
    split; [ split; [ intros ->; discriminate Hm | lia ] | ].
    split; [ lia | intros _; exact Hm ].
Qed.

Lemma recorded_expense_is_checked_witness :
  match fst (record_expense Samples.amount_forest ANOMALY_CONTAMINATION
               Samples.now0 Samples.now0 1 500 "food" "upi" "lunch" Samples.db_nine) with
  | Return (_, (_, _, m)) =>
      m <> ExpenseNotFound
      /\ (m = NotEnoughData
          <-> (List.length (select_user_expenses Samples.now0 1 90
                              (expenses Samples.db_nine)) < 9)%nat)
      /\ (is_explanation m = true
          <-> (9 <= List.length (select_user_expenses Samples.now0 1 90
                                   (expenses Samples.db_nine)))%nat)
  | Raise _ =>
      (9 <= List.length (select_user_expenses Samples.now0 1 90
                           (expenses Samples.db_nine)))%nat
  end.
Proof.
  apply (recorded_expense_is_checked Samples.amount_forest ANOMALY_CONTAMINATION
           Samples.now0 Samples.now0 1 500 "food" "upi" "lunch" Samples.db_nine).
  reflexivity.
Defined.

(** * Running the batch detector again *)

Section Again.

Variable L : IsolationForestLib.
Variable contamination : float.

(** The features do not look at the anomaly status. *)
Lemma prepare_features_ignores_status (df df' : list expense) :
  Forall2 (fun e r => exists a s, r = set_anomaly a s e) df df' ->
  prepare_features df' = prepare_features df.
Proof.
  intros H. unfold prepare_features.
  assert (Hc : map category df' = map category df).
  { induction H as [ | e r l l' [a [s ->]] _ IH ]; [ reflexivity | ].
    cbn [map]. now rewrite IH. }
  assert (Hp : map payment_method df' = map payment_method df).
  { clear Hc. induction H as [ | e r l l' [a [s ->]] _ IH ]; [ reflexivity | ].
    cbn [map]. now rewrite IH. }
  rewrite Hc, Hp. clear Hc Hp.
  generalize (dummy_columns (map category df))
             (dummy_columns (map payment_method df)).
  intros cats pays. f_equal.
  induction H as [ | e r l l' [a [s ->]] _ IH ]; [ reflexivity | ].
  cbn [map]. now rewrite IH.
Qed.

Lemma assign_ignores_status (df df' : list expense) (flags : list bool)
  (scores : list float) :
  Forall2 (fun e r => exists a s, r = set_anomaly a s e) df df' ->
  assign set_anomaly_score (assign set_is_anomaly df' flags) scores
  = assign set_anomaly_score (assign set_is_anomaly df flags) scores.
Proof.
  intros H. revert flags scores.
  induction H as [ | e r l l' [a [s ->]] _ IH ]; intros flags scores; [ reflexivity | ].
  destruct flags as [ | f flags ]; [ reflexivity | ].
  destruct scores as [ | x scores ]; [ reflexivity | ].
  cbn [assign]. now rewrite IH.
Qed.

Lemma scored_frame_status (df : list expense) :
  Forall2 (fun e r => exists a s, r = set_anomaly a s e) df
          (scored_frame L contamination df).
Proof.
  unfold scored_frame.
  destruct (scaler_fit_transform_returns (prepare_features df)) as [Xs [HXs HlenXs]].
  rewrite HXs.
  assert (Hrows : List.length (rows Xs) = List.length df)
    by (rewrite HlenXs; unfold prepare_features; cbn [rows]; apply length_map).
  apply assign_twice; now rewrite !length_map.
Qed.

Lemma scored_frame_ignores_status (df df' : list expense) :
  Forall2 (fun e r => exists a s, r = set_anomaly a s e) df df' ->
  scored_frame L contamination df' = scored_frame L contamination df.
Proof.
  intros H. unfold scored_frame. rewrite (prepare_features_ignores_status df df' H).
  destruct (scaler_fit_transform_returns (prepare_features df)) as [Xs [HXs _]].
  rewrite HXs. now apply assign_ignores_status.
Qed.

Lemma detect_anomalies_scored_frame (now : Calendar.datetime) (uid : Z) (db : database) :
  let df := select_user_expenses now uid 90 (expenses db) in
  (10 <= List.length df)%nat ->
  detect_anomalies L contamination now uid db
  = (Return (filter is_anomaly (scored_frame L contamination df)),
     mkdatabase
       (map (fun e => fold_left (fun e row => written row e)
                                (scored_frame L contamination df) e)
            (expenses db))
       (preferences db) (forecasts db)).
Proof.
  intros df Hlen. unfold scored_frame.
  unfold detect_anomalies, bind at 1, get_user_expenses. fold df.
  apply Nat.ltb_ge in Hlen. rewrite Hlen.
  destruct (scaler_fit_transform_returns (prepare_features df)) as [Xs [HXs _]].
  unfold bind, lift. rewrite HXs, iterrows_update. reflexivity.
Qed.

(** A row of the table that the loop has written is written the same way
    by a second pass. *)
Lemma written_twice (table df scored : list expense) (t : expense) :
  NoDup (map id table) ->
  (forall e, In e df -> In e table) ->
  Forall2 (fun e r => exists a s, r = set_anomaly a s e) df scored ->
  NoDup (map id scored) ->
  In t table ->
  fold_left (fun e row => written row e) scored
            (fold_left (fun e row => written row e) scored t)
  = fold_left (fun e row => written row e) scored t.
Proof.
  intros Hnd Hsub Hsc Hids Ht.
  destruct (in_dec Z.eq_dec (id t) (map id scored)) as [Hin | Hout].
  - apply in_map_iff in Hin. destruct Hin as [row [Hid Hrow]].
    destruct (Forall2_In_r _ _ _ row Hsc Hrow) as [e [He [a [s Hr]]]].
    assert (E : e = t).
    { apply (NoDup_map_eq id table); [ exact Hnd | now apply Hsub | exact Ht | ].
      rewrite <- Hid. now subst row. }
    subst e.
    assert (Hfold : fold_left (fun e row => written row e) scored t = row).
    { rewrite (fold_written_hit scored t row Hids Hrow Hid). now subst row. }
    rewrite Hfold, (fold_written_hit scored row row Hids Hrow eq_refl). now subst row.
  - assert (Hfold : fold_left (fun e row => written row e) scored t = t).
    { apply fold_written_miss. intros row Hrow Hid. apply Hout.
      rewrite <- Hid. now apply in_map. }
    now rewrite !Hfold.
Qed.

End Again.

(** X20. [detect_anomalies] is idempotent: the features do not look at the
    status columns, so a second run at the same clock reading (keys being
    distinct) returns the same frame as the first and leaves the store as
    the first left it. *)
Theorem detect_anomalies_twice_is_once :
  forall (L : IsolationForestLib) (contamination : float)
         (now : Calendar.datetime) (uid : Z) (db : database),
    NoDup (map id (expenses db)) ->
    let first := detect_anomalies L contamination now uid db in
    detect_anomalies L contamination now uid (snd first) = first.
Proof.
  intros L c now uid db Hnd first. unfold first. clear first.
  destruct (Nat.ltb_spec (List.length (select_user_expenses now uid 90 (expenses db))) 10)
    as [Hlen | Hlen].
  - rewrite (detect_anomalies_short L c now uid db Hlen). cbn [snd].
    now apply detect_anomalies_short.
  - rewrite (detect_anomalies_scored_frame L c now uid db Hlen). cbn [snd].
    set (df := select_user_expenses now uid 90 (expenses db)) in *.
    set (scored := scored_frame L c df).
    pose proof (scored_frame_status L c df) as Hsc. fold scored in Hsc.
    assert (Hids : NoDup (map id scored)).
    { rewrite (rescored_ids df scored Hsc). now apply select_user_expenses_NoDup. }
    assert (Hwindow : select_user_expenses now uid 90
                        (map (fun e => fold_left (fun e row => written row e) scored e)
                             (expenses db))
                      = scored).
    { rewrite select_user_expenses_map.
      - apply (rescored_window scored df scored Hids Hsc). auto.
      - intros x. apply (fold_written_same scored x).
      - intros x. apply (fold_written_same scored x). }
    rewrite detect_anomalies_scored_frame; cbn [expenses preferences forecasts];
      rewrite Hwindow.
    + rewrite (scored_frame_ignores_status L c df scored Hsc). fold scored.
      f_equal. f_equal. rewrite map_map. apply map_ext_in. intros t Ht.
      apply (written_twice (expenses db) df scored t Hnd); try assumption.
      intros e He.
      assert (Hperm : Permutation (filter (in_window now uid 90) (expenses db)) df)
        by apply order_by_timestamp_desc_perm.
      apply (Permutation_in e (Permutation_sym Hperm)) in He.
      now apply filter_In in He.
    + rewrite <- (Forall2_length Hsc). exact Hlen.
Qed.

Lemma detect_anomalies_twice_is_once_witness :
  detect_anomalies Samples.amount_forest ANOMALY_CONTAMINATION Samples.now0 1
    (snd (detect_anomalies Samples.amount_forest ANOMALY_CONTAMINATION Samples.now0 1
            Samples.db_ten))
  = detect_anomalies Samples.amount_forest ANOMALY_CONTAMINATION Samples.now0 1
      Samples.db_ten.
Proof.
  apply (detect_anomalies_twice_is_once Samples.amount_forest ANOMALY_CONTAMINATION
           Samples.now0 1 Samples.db_ten).
  vm_compute. repeat constructor; cbn; intuition discriminate.
Defined.
